(** * Herb information extraction: the prompt-chaining pipeline

    A shallow embedding of [src/agents/herbs_info_extraction.py]:
    [extract_initial_information], [validate_extraction],
    [get_missing_fields], [re_extract_missing_fields] and the driver
    [extract_herb_information].

    Conventions of the embedding.
    - A Python [str] is a list of Unicode code points ([N]), so that [len]
      counts code points and [str.strip] removes exactly the code points
      Python regards as white space.
    - A Python [dict] is an association list in insertion order.
    - The chain [prompt | llm | output_parser] is an external service: it is
      a section variable [invoke] acting on an abstract [World]; it either
      returns a completion or raises.
    - Code that may raise runs in the monad [M], an exception monad over the
      state [World]; [try ... except Exception] is [try_except].
    - Console output ([print]) is not modelled; the [verbose] flag only
      selects what is printed. *)

From Stdlib Require Import List NArith String Ascii QArith Bool Arith Lia.
Import ListNotations.

Local Close Scope Q_scope.
Local Open Scope nat_scope.
Local Open Scope list_scope.

(* ====================================================================== *)
(** ** Python strings *)

Definition str : Type := list N.

(** An ASCII literal of the source as a [str]. *)
Definition py (s : string) : str := map N_of_ascii (list_ascii_of_string s).

Fixpoint str_eqb (a b : str) : bool :=
  match a, b with
  | [], [] => true
  | x :: a', y :: b' => N.eqb x y && str_eqb a' b'
  | _, _ => false
  end.

(** [str.isspace] on one code point (CPython's [_PyUnicode_IsWhitespace]). *)
Definition isspace (c : N) : bool :=
  ((9 <=? c) && (c <=? 13) || (28 <=? c) && (c <=? 32)
   || (c =? 133) || (c =? 160) || (c =? 5760)
   || (8192 <=? c) && (c <=? 8202)
   || (c =? 8232) || (c =? 8233) || (c =? 8239) || (c =? 8287)
   || (c =? 12288))%N.

Fixpoint lstrip (s : str) : str :=
  match s with
  | c :: s' => if isspace c then lstrip s' else s
  | [] => []
  end.

Definition rstrip (s : str) : str := rev (lstrip (rev s)).

(** [s.strip()] *)
Definition strip (s : str) : str := rstrip (lstrip s).

(** [len(s)] *)
Definition len (s : str) : nat := List.length s.

(** Truth value of a string: [bool(s)]. *)
Definition truthy (s : str) : bool :=
  match s with [] => false | _ :: _ => true end.

(** Truth value of a list: [bool(xs)]. *)
Definition nonempty {A} (xs : list A) : bool :=
  match xs with [] => false | _ :: _ => true end.

(** [x in (a, b, c)] for strings. *)
Definition in_tuple (x : str) (t : list str) : bool := existsb (str_eqb x) t.

(** [s.endswith(suffix)] *)
Definition endswith (s suffix : str) : bool :=
  str_eqb (skipn (List.length s - List.length suffix) s) suffix.

(** [str.lower] restricted to the ASCII letters; it agrees with Python on
    ASCII text and is used to run the pipeline on concrete inputs. *)
Definition lower_ascii (s : str) : str :=
  map (fun c => if ((65 <=? c) && (c <=? 90))%N then (c + 32)%N else c) s.

(* ====================================================================== *)
(** ** Python dictionaries (insertion ordered) *)

Definition dict (V : Type) : Type := list (str * V).

Fixpoint dict_get {V} (d : dict V) (k : str) : option V :=
  match d with
  | [] => None
  | (k', v) :: d' => if str_eqb k k' then Some v else dict_get d' k
  end.

(** [d.get(k, default)] *)
Definition dict_get_default {V} (d : dict V) (k : str) (default : V) : V :=
  match dict_get d k with Some v => v | None => default end.

(** [k in d] *)
Definition dict_mem {V} (d : dict V) (k : str) : bool :=
  match dict_get d k with Some _ => true | None => false end.

(** [d[k] = v]: an existing key keeps its position, a new key goes last. *)
Fixpoint dict_set {V} (d : dict V) (k : str) (v : V) : dict V :=
  match d with
  | [] => [(k, v)]
  | (k', v') :: d' =>
      if str_eqb k k' then (k', v) :: d' else (k', v') :: dict_set d' k v
  end.

Definition dict_keys {V} (d : dict V) : list str := map fst d.

(* ====================================================================== *)
(** ** Data structures of the module *)

Record HerbExtractionResult : Type := mkHerb {
  title : str;
  authors : str;
  year : str;
  scientific_name : str;
  medicinal_use : str;
  biological_activity : str;
  dose : str;
  phytochemicals : str;
  plant_part_used : str;
  formulation : str;
  botanic_description : str;
  toxicity : str;
  adverse_reactions : str;
  health_benefits : str;
  nutritional_benefits : str;
  reference : str
}.

(** [to_dict], that is [dataclasses.asdict]: the declared fields in
    declaration order. *)
Definition to_dict (r : HerbExtractionResult) : dict str :=
  [ (py "title", title r);
    (py "authors", authors r);
    (py "year", year r);
    (py "scientific_name", scientific_name r);
    (py "medicinal_use", medicinal_use r);
    (py "biological_activity", biological_activity r);
    (py "dose", dose r);
    (py "phytochemicals", phytochemicals r);
    (py "plant_part_used", plant_part_used r);
    (py "formulation", formulation r);
    (py "botanic_description", botanic_description r);
    (py "toxicity", toxicity r);
    (py "adverse_reactions", adverse_reactions r);
    (py "health_benefits", health_benefits r);
    (py "nutritional_benefits", nutritional_benefits r);
    (py "reference", reference r) ].

(** The names of the sixteen declared fields, in declaration order. *)
Definition field_names : list str :=
  Eval cbv in
  [ py "title"; py "authors"; py "year"; py "scientific_name";
    py "medicinal_use"; py "biological_activity"; py "dose";
    py "phytochemicals"; py "plant_part_used"; py "formulation";
    py "botanic_description"; py "toxicity"; py "adverse_reactions";
    py "health_benefits"; py "nutritional_benefits"; py "reference" ].

(** [getattr(r, name)] for a declared field. *)
Definition getattr (r : HerbExtractionResult) (name : str) : option str :=
  dict_get (to_dict r) name.

(** The constructor called with the keyword arguments of a dictionary; a
    missing keyword and an unexpected keyword are a [TypeError], here
    [None]. *)
Definition of_dict (d : dict str) : option HerbExtractionResult :=
  if forallb (fun k => in_tuple k field_names) (dict_keys d) then
    match map (dict_get d) field_names with
    | [Some a1; Some a2; Some a3; Some a4; Some a5; Some a6; Some a7;
       Some a8; Some a9; Some a10; Some a11; Some a12; Some a13; Some a14;
       Some a15; Some a16] =>
        Some (mkHerb a1 a2 a3 a4 a5 a6 a7 a8 a9 a10 a11 a12 a13 a14 a15 a16)
    | _ => None
    end
  else None.

(** [setattr(r, name, v)].  On a name that is not a declared field Python
    would attach a fresh attribute to the instance, which [to_dict] does not
    see: the sixteen fields are unchanged. *)
Definition setattr (r : HerbExtractionResult) (name : str) (v : str)
  : HerbExtractionResult :=
  if str_eqb name (py "title") then
    mkHerb v (authors r) (year r) (scientific_name r) (medicinal_use r)
      (biological_activity r) (dose r) (phytochemicals r) (plant_part_used r)
      (formulation r) (botanic_description r) (toxicity r)
      (adverse_reactions r) (health_benefits r) (nutritional_benefits r)
      (reference r)
  else if str_eqb name (py "authors") then
    mkHerb (title r) v (year r) (scientific_name r) (medicinal_use r)
      (biological_activity r) (dose r) (phytochemicals r) (plant_part_used r)
      (formulation r) (botanic_description r) (toxicity r)
      (adverse_reactions r) (health_benefits r) (nutritional_benefits r)
      (reference r)
  else if str_eqb name (py "year") then
    mkHerb (title r) (authors r) v (scientific_name r) (medicinal_use r)
      (biological_activity r) (dose r) (phytochemicals r) (plant_part_used r)
      (formulation r) (botanic_description r) (toxicity r)
      (adverse_reactions r) (health_benefits r) (nutritional_benefits r)
      (reference r)
  else if str_eqb name (py "scientific_name") then
    mkHerb (title r) (authors r) (year r) v (medicinal_use r)
      (biological_activity r) (dose r) (phytochemicals r) (plant_part_used r)
      (formulation r) (botanic_description r) (toxicity r)
      (adverse_reactions r) (health_benefits r) (nutritional_benefits r)
      (reference r)
  else if str_eqb name (py "medicinal_use") then
    mkHerb (title r) (authors r) (year r) (scientific_name r) v
      (biological_activity r) (dose r) (phytochemicals r) (plant_part_used r)
      (formulation r) (botanic_description r) (toxicity r)
      (adverse_reactions r) (health_benefits r) (nutritional_benefits r)
      (reference r)
  else if str_eqb name (py "biological_activity") then
    mkHerb (title r) (authors r) (year r) (scientific_name r)
      (medicinal_use r) v (dose r) (phytochemicals r) (plant_part_used r)
      (formulation r) (botanic_description r) (toxicity r)
      (adverse_reactions r) (health_benefits r) (nutritional_benefits r)
      (reference r)
  else if str_eqb name (py "dose") then
    mkHerb (title r) (authors r) (year r) (scientific_name r)
      (medicinal_use r) (biological_activity r) v (phytochemicals r)
      (plant_part_used r) (formulation r) (botanic_description r)
      (toxicity r) (adverse_reactions r) (health_benefits r)
      (nutritional_benefits r) (reference r)
  else if str_eqb name (py "phytochemicals") then
    mkHerb (title r) (authors r) (year r) (scientific_name r)
      (medicinal_use r) (biological_activity r) (dose r) v
      (plant_part_used r) (formulation r) (botanic_description r)
      (toxicity r) (adverse_reactions r) (health_benefits r)
      (nutritional_benefits r) (reference r)
  else if str_eqb name (py "plant_part_used") then
    mkHerb (title r) (authors r) (year r) (scientific_name r)
      (medicinal_use r) (biological_activity r) (dose r) (phytochemicals r)
      v (formulation r) (botanic_description r) (toxicity r)
      (adverse_reactions r) (health_benefits r) (nutritional_benefits r)
      (reference r)
  else if str_eqb name (py "formulation") then
    mkHerb (title r) (authors r) (year r) (scientific_name r)
      (medicinal_use r) (biological_activity r) (dose r) (phytochemicals r)
      (plant_part_used r) v (botanic_description r) (toxicity r)
      (adverse_reactions r) (health_benefits r) (nutritional_benefits r)
      (reference r)
  else if str_eqb name (py "botanic_description") then
    mkHerb (title r) (authors r) (year r) (scientific_name r)
      (medicinal_use r) (biological_activity r) (dose r) (phytochemicals r)
      (plant_part_used r) (formulation r) v (toxicity r)
      (adverse_reactions r) (health_benefits r) (nutritional_benefits r)
      (reference r)
  else if str_eqb name (py "toxicity") then
    mkHerb (title r) (authors r) (year r) (scientific_name r)
      (medicinal_use r) (biological_activity r) (dose r) (phytochemicals r)
      (plant_part_used r) (formulation r) (botanic_description r) v
      (adverse_reactions r) (health_benefits r) (nutritional_benefits r)
      (reference r)
  else if str_eqb name (py "adverse_reactions") then
    mkHerb (title r) (authors r) (year r) (scientific_name r)
      (medicinal_use r) (biological_activity r) (dose r) (phytochemicals r)
      (plant_part_used r) (formulation r) (botanic_description r)
      (toxicity r) v (health_benefits r) (nutritional_benefits r)
      (reference r)
  else if str_eqb name (py "health_benefits") then
    mkHerb (title r) (authors r) (year r) (scientific_name r)
      (medicinal_use r) (biological_activity r) (dose r) (phytochemicals r)
      (plant_part_used r) (formulation r) (botanic_description r)
      (toxicity r) (adverse_reactions r) v (nutritional_benefits r)
      (reference r)
  else if str_eqb name (py "nutritional_benefits") then
    mkHerb (title r) (authors r) (year r) (scientific_name r)
      (medicinal_use r) (biological_activity r) (dose r) (phytochemicals r)
      (plant_part_used r) (formulation r) (botanic_description r)
      (toxicity r) (adverse_reactions r) (health_benefits r) v
      (reference r)
  else if str_eqb name (py "reference") then
    mkHerb (title r) (authors r) (year r) (scientific_name r)
      (medicinal_use r) (biological_activity r) (dose r) (phytochemicals r)
      (plant_part_used r) (formulation r) (botanic_description r)
      (toxicity r) (adverse_reactions r) (health_benefits r)
      (nutritional_benefits r) v
  else r.

Inductive ExtractionStatus : Type := COMPLETE | PARTIAL | MISSING.

Record FieldValidation : Type := mkValidation {
  field_name : str;
  value : str;
  status : ExtractionStatus;
  confidence : Q
}.

(* ====================================================================== *)
(** ** Exceptions and the service monad *)

(** An [Exception] with its message. *)
Inductive Exception : Type := Error (msg : str).

Inductive outcome (A : Type) : Type :=
| Ret (a : A)
| Exc (e : Exception).
Arguments Ret {A} a.
Arguments Exc {A} e.

(** A service that replays a script: each call consumes the next scripted
    outcome, whatever the prompt; past the end of the script it raises. *)
Definition scripted (prompt : str) (w : list (outcome str))
  : outcome str * list (outcome str) :=
  match w with
  | [] => (Exc (Error (py "service unavailable")), [])
  | r :: w' => (r, w')
  end.

(** Any service, instrumented with the number of calls made to it. *)
Definition counted {World} (invoke : str -> World -> outcome str * World)
  (prompt : str) (wn : World * nat) : outcome str * (World * nat) :=
  let (w, n) := wn in
  let (result, w') := invoke prompt w in
  (result, (w', S n)).

(* ====================================================================== *)
(** ** Prompt tables *)

(** A prompt template of the source, [parts] joined and followed by two
    line feeds and the placeholder [{text}], kept as the text that precedes
    the placeholder. *)
Definition template (parts : list string) : str :=
  py (String.concat "" parts) ++ [10; 10]%N.

(** [ChatPromptTemplate.from_template(t)] formatted with [{"text": text}]. *)
Definition format_prompt (t : str) (text : str) : str := t ++ text.

Local Open Scope string_scope.

Definition extraction_prompts : dict str :=
  [
    (py "title", template
      ["Extract the full title of the research paper from the ";
       "following text. If not available, respond with 'Not ";
       "available':"]);
    (py "authors", template
      ["Extract all authors of the research paper from the ";
       "following text, separated by commas. If not available, ";
       "respond with 'Not available':"]);
    (py "year", template
      ["Extract the year of publication from the following text. ";
       "If not available, respond with 'Not available':"]);
    (py "scientific_name", template
      ["Extract all scientific names of medicinal plants ";
       "mentioned in the following text. List them all. If not ";
       "available, respond with 'Not mentioned':"]);
    (py "medicinal_use", template
      ["Extract any medicinal uses mentioned in the following ";
       "text, i.e., the application of herbs to prevent, ";
       "diagnose, treat, or manage diseases. If not available, ";
       "respond with 'Not mentioned':"]);
    (py "biological_activity", template
      ["Describe the biological activities of the medicinal ";
       "plants mentioned in detail from the following text. If ";
       "not covered, respond with 'Not mentioned':"]);
    (py "dose", template
      ["Extract any dosage information including amounts and ";
       "units from the following text. If not mentioned, respond ";
       "with 'Not mentioned':"]);
    (py "phytochemicals", template
      ["List all phytochemicals present in the medicinal plants ";
       "mentioned in the following text. If not available, ";
       "respond with 'Not mentioned':"]);
    (py "plant_part_used", template
      ["Describe which part of the plant is used for medicinal ";
       "purposes from the following text. If not available, ";
       "respond with 'Not mentioned':"]);
    (py "formulation", template
      ["Extract details about the formulation of the medicinal ";
       "plants (e.g., tablets, capsules, extracts) from the ";
       "following text. If not available, respond with 'Not ";
       "mentioned':"]);
    (py "botanic_description", template
      ["Provide a detailed botanical description of the plants ";
       "from the following text, including physical ";
       "characteristics, structure, and appearance. If not ";
       "available, respond with 'Not mentioned':"]);
    (py "toxicity", template
      ["Extract any information related to the toxicity of the ";
       "medicinal plants from the following text. If not ";
       "available, respond with 'Not mentioned':"]);
    (py "adverse_reactions", template
      ["List any reported adverse reactions from the following ";
       "text. If none are mentioned, respond with 'Not mentioned':"]);
    (py "health_benefits", template
      ["Describe any health benefits offered by the medicinal ";
       "plants from the following text. If no benefits are ";
       "mentioned, respond with 'Not mentioned':"]);
    (py "nutritional_benefits", template
      ["Extract any nutritional benefits provided by the ";
       "medicinal plants from the following text. If not ";
       "applicable, respond with 'Not mentioned':"]);
    (py "reference", template
      ["Extract citation information (title, author(s), year, ";
       "journal, volume, issue, pages, DOI) and format it as an ";
       "APA 7th edition reference from the following text. If not ";
       "available, respond with 'Not mentioned':"])
  ].

Definition re_extraction_prompts : dict str :=
  [
    (py "scientific_name", template
      ["Please carefully re-read the following text and extract ";
       "ALL scientific names of medicinal plants. Look for ";
       "binomial nomenclature (Genus species). Provide a ";
       "comprehensive list:"]);
    (py "year", template
      ["Please carefully re-read the following text and extract ";
       "the publication year. Look for any mention of when this ";
       "work was published or conducted:"]);
    (py "medicinal_use", template
      ["Please carefully re-read the following text and provide ";
       "detailed information about medicinal uses. How are these ";
       "herbs used to treat, prevent, or manage diseases:"]);
    (py "dose", template
      ["Please carefully re-read the following text and extract ";
       "ALL dosage information mentioned. Include amounts, units, ";
       "frequency, and administration routes:"]);
    (py "phytochemicals", template
      ["Please carefully re-read the following text and list ALL ";
       "phytochemicals, active compounds, or chemical ";
       "constituents mentioned:"]);
    (py "plant_part_used", template
      ["Please carefully re-read the following text and describe ";
       "which specific parts of the plant are used (root, leaf, ";
       "stem, flower, seed, etc.):"]);
    (py "formulation", template
      ["Please carefully re-read the following text and extract ";
       "details about how these plants are formulated (tablets, ";
       "capsules, extracts, powders, teas, etc.):"]);
    (py "botanic_description", template
      ["Please carefully re-read the following text and provide a ";
       "detailed botanical description including physical ";
       "characteristics, structure, appearance, and growth habits:"]);
    (py "toxicity", template
      ["Please carefully re-read the following text and extract ";
       "any information about toxicity, safety profiles, or toxic ";
       "effects:"]);
    (py "adverse_reactions", template
      ["Please carefully re-read the following text and list any ";
       "adverse reactions, side effects, or contraindications ";
       "mentioned:"]);
    (py "health_benefits", template
      ["Please carefully re-read the following text and describe ";
       "all health benefits mentioned for these medicinal plants:"]);
    (py "nutritional_benefits", template
      ["Please carefully re-read the following text and extract ";
       "information about nutritional benefits, vitamins, ";
       "minerals, or nutritional value:"]);
    (py "reference", template
      ["Please carefully re-read the following text and extract ";
       "complete citation information (title, authors, year, ";
       "journal, volume, issue, pages, DOI). Format this as an ";
       "APA 7th edition reference:"])
  ].
Local Close Scope string_scope.

(* ====================================================================== *)
(** ** Step 2: validation (pure) *)

(** The body of the loop of [validate_extraction] for one field. *)
Definition validate_field (name : str) (v : str) : FieldValidation :=
  if in_tuple v [py "Not mentioned"; py "Not available"; py ""] then
    mkValidation name v MISSING 0%Q
  else if len (strip v) <? 5 then
    mkValidation name v PARTIAL (3 # 10)%Q
  else
    mkValidation name v COMPLETE (9 # 10)%Q.

Definition validate_extraction (extraction : HerbExtractionResult)
  : dict FieldValidation :=
  fold_left
    (fun validations item =>
       dict_set validations (fst item) (validate_field (fst item) (snd item)))
    (to_dict extraction) [].

Definition needs_attention (s : ExtractionStatus) : bool :=
  match s with MISSING | PARTIAL => true | COMPLETE => false end.

Definition get_missing_fields (validations : dict FieldValidation)
  : list str :=
  fold_left
    (fun missing item =>
       if needs_attention (status (snd item)) then missing ++ [fst item]
       else missing)
    validations [].

Definition is_complete (s : ExtractionStatus) : bool :=
  match s with COMPLETE => true | MISSING | PARTIAL => false end.

(** The count printed by the final validation of the driver:
    [sum(1 for v in final_validations.values() if v.status == COMPLETE)]. *)
Definition complete_count (final_validations : dict FieldValidation) : nat :=
  list_sum
    (map (fun _ => 1)
       (filter (fun v => is_complete (status v)) (map snd final_validations))).

(* ====================================================================== *)
(** ** The pipeline over an arbitrary generation service *)

Section Pipeline.

Variable World : Type.

(** [chain.invoke]: the completion for a prompt, or an exception; the
    service may change state either way. *)
Variable invoke : str -> World -> outcome str * World.

(** [str.lower], Python's Unicode lower-casing. *)
Variable lower : str -> str.

Definition M (A : Type) : Type := World -> outcome A * World.

Definition ret {A} (a : A) : M A := fun w => (Ret a, w).

Definition bind {A B} (m : M A) (k : A -> M B) : M B :=
  fun w =>
    match m w with
    | (Ret a, w') => k a w'
    | (Exc e, w') => (Exc e, w')
    end.

Definition raise {A} (e : Exception) : M A := fun w => (Exc e, w).

(** [try: body except Exception as e: handler] *)
Definition try_except {A} (body : M A) (handler : Exception -> M A) : M A :=
  fun w =>
    match body w with
    | (Ret a, w') => (Ret a, w')
    | (Exc e, w') => handler e w'
    end.

(** [for x in xs: s = body(s, x)] *)
Fixpoint for_each {X S} (xs : list X) (body : S -> X -> M S) (s : S) : M S :=
  match xs with
  | [] => ret s
  | x :: xs' => bind (body s x) (for_each xs' body)
  end.

Notation "x <- m ;; k" := (bind m (fun x => k))
  (at level 61, m at next level, right associativity).

(** *** Step 1: initial extraction *)

(** One iteration of the extraction loop. *)
Definition extract_field (paper_text : str) (extracted_fields : dict str)
  (item : str * str) : M (dict str) :=
  let (name, prompt_template) := item in
  try_except
    (result <- invoke (format_prompt prompt_template paper_text) ;;
     ret (dict_set extracted_fields name (strip result)))
    (fun _ => ret (dict_set extracted_fields name (py "Not mentioned"))).

(** The result object built from [extracted_fields]. *)
Definition make_result (extracted_fields : dict str) : HerbExtractionResult :=
  let get := dict_get_default extracted_fields in
  {| title := get (py "title") (py "Not available");
     authors := get (py "authors") (py "Not available");
     year := get (py "year") (py "Not available");
     scientific_name := get (py "scientific_name") (py "Not mentioned");
     medicinal_use := get (py "medicinal_use") (py "Not mentioned");
     biological_activity :=
       get (py "biological_activity") (py "Not mentioned");
     dose := get (py "dose") (py "Not mentioned");
     phytochemicals := get (py "phytochemicals") (py "Not mentioned");
     plant_part_used := get (py "plant_part_used") (py "Not mentioned");
     formulation := get (py "formulation") (py "Not mentioned");
     botanic_description :=
       get (py "botanic_description") (py "Not mentioned");
     toxicity := get (py "toxicity") (py "Not mentioned");
     adverse_reactions := get (py "adverse_reactions") (py "Not mentioned");
     health_benefits := get (py "health_benefits") (py "Not mentioned");
     nutritional_benefits :=
       get (py "nutritional_benefits") (py "Not mentioned");
     reference := get (py "reference") (py "Not mentioned") |}.

Definition extract_initial_information (paper_text : str)
  : M HerbExtractionResult :=
  extracted_fields <-
    for_each extraction_prompts (extract_field paper_text) [] ;;
  ret (make_result extracted_fields).

(** *** Step 3: re-extraction *)

(** The test that guards the update of a field. *)
Definition accepted (result : str) : bool :=
  truthy result && truthy (strip result)
  && negb (in_tuple (lower (strip result))
             [py "not mentioned"; py "not available"; py ""]).

(** One iteration of the re-extraction loop. *)
Definition re_extract_field (paper_text : str)
  (updated_extraction : HerbExtractionResult) (field : str)
  : M HerbExtractionResult :=
  match dict_get re_extraction_prompts field with
  | Some prompt_template =>
      try_except
        (result <- invoke (format_prompt prompt_template paper_text) ;;
         if accepted result
         then ret (setattr updated_extraction field (strip result))
         else ret updated_extraction)
        (fun _ => ret updated_extraction)
  | None => ret updated_extraction
  end.

Definition re_extract_missing_fields (paper_text : str)
  (missing_fields : list str) (initial_extraction : HerbExtractionResult)
  : M HerbExtractionResult :=
  match of_dict (to_dict initial_extraction) with
  | Some updated_extraction =>
      for_each missing_fields (re_extract_field paper_text) updated_extraction
  | None => raise (Error (py "TypeError"))
  end.

(** Where a value of the repaired object comes from: an accepted completion
    of the service for the repair prompt of that very field. *)
Definition repaired_by (text : str) (fields : list str) (name v : str)
  : Prop :=
  exists t result w0 w1,
    In name fields /\
    dict_get re_extraction_prompts name = Some t /\
    invoke (format_prompt t text) w0 = (Ret result, w1) /\
    accepted result = true /\
    v = strip result.

(** *** The driver *)

Definition extract_herb_information (paper_text : str) (verbose : bool)
  : M HerbExtractionResult :=
  extraction <- extract_initial_information paper_text ;;
  let validations := validate_extraction extraction in
  let missing_fields := get_missing_fields validations in
  extraction <-
    (if nonempty missing_fields
     then re_extract_missing_fields paper_text missing_fields extraction
     else ret extraction) ;;
  ret extraction.

End Pipeline.

Arguments ret {World A} a w.
Arguments bind {World A B} m k w.
Arguments raise {World A} e w.
Arguments try_except {World A} body handler w.
Arguments for_each {World X S} xs body s w.
Arguments extract_field {World} invoke paper_text extracted_fields item w.
Arguments extract_initial_information {World} invoke paper_text w.
Arguments re_extract_field {World} invoke lower paper_text
  updated_extraction field w.
Arguments re_extract_missing_fields {World} invoke lower paper_text
  missing_fields initial_extraction w.
Arguments repaired_by {World} invoke lower text fields name v.
Arguments extract_herb_information {World} invoke lower paper_text verbose w.

(** The sentinel configured for a field: the default of its keyword in the
    construction of the result object. *)
Definition field_sentinel (name : str) : option str :=
  getattr (make_result []) name.

(** The extraction prompt of a field asks the service to answer with the
    field's sentinel when the paper says nothing. *)
Definition prompt_names_sentinel (item : str * str) : bool :=
  match field_sentinel (fst item) with
  | Some sentinel =>
      endswith (snd item)
        (py "respond with '" ++ sentinel ++ py "':" ++ [10; 10]%N)
  | None => false
  end.

(** A record holding the same text in every field. *)
Definition uniform (v : str) : HerbExtractionResult :=
  mkHerb v v v v v v v v v v v v v v v v.

(* ====================================================================== *)
(** ** Strings and dictionaries *)

Lemma str_eqb_eq (a b : str) : str_eqb a b = true <-> a = b.
Proof.
  revert b; induction a as [|x a IH]; intros [|y b]; simpl;
    try (split; [discriminate | congruence]); try tauto.
  rewrite andb_true_iff, N.eqb_eq, IH. split.
  - intros [-> ->]; reflexivity.
  - intros H; injection H; auto.
Qed.

Lemma str_eqb_refl (a : str) : str_eqb a a = true.
Proof. apply str_eqb_eq; reflexivity. Qed.

Lemma str_eqb_neq (a b : str) : str_eqb a b = false <-> a <> b.
Proof.
  rewrite <- str_eqb_eq. destruct (str_eqb a b); split; congruence.
Qed.

Lemma in_tuple_In (x : str) (t : list str) : in_tuple x t = true <-> In x t.
Proof.
  unfold in_tuple. rewrite existsb_exists. split.
  - intros (y & Hy & E). apply str_eqb_eq in E. subst; assumption.
  - intros H. exists x. split; [assumption | apply str_eqb_refl].
Qed.

Lemma in_tuple_not_In (x : str) (t : list str) :
  in_tuple x t = false <-> ~ In x t.
Proof.
  rewrite <- in_tuple_In. destruct (in_tuple x t); split; congruence.
Qed.

Lemma truthy_nonempty (s : str) : truthy s = true <-> s <> [].
Proof. destruct s; simpl; split; congruence. Qed.

Section DictFacts.

Context {V : Type}.
Implicit Types (d : dict V) (k : str) (v : V).

Lemma dict_get_set_same d k v : dict_get (dict_set d k v) k = Some v.
Proof.
  induction d as [|[k' v'] d IH]; simpl.
  - now rewrite str_eqb_refl.
  - destruct (str_eqb k k') eqn:E; simpl; rewrite E; auto.
Qed.

Lemma dict_get_set_other d k k' v :
  k <> k' -> dict_get (dict_set d k v) k' = dict_get d k'.
Proof.
  intros Hne. induction d as [|[k0 v0] d IH]; simpl.
  - apply str_eqb_neq in Hne.
    destruct (str_eqb k' k) eqn:E; [|reflexivity].
    apply str_eqb_eq in E. apply str_eqb_neq in Hne. congruence.
  - destruct (str_eqb k k0) eqn:E; simpl.
    + apply str_eqb_eq in E. subst k0.
      destruct (str_eqb k' k) eqn:E'; [|reflexivity].
      apply str_eqb_eq in E'. congruence.
    + now rewrite IH.
Qed.

Lemma dict_get_In_keys d k :
  dict_get d k <> None <-> In k (dict_keys d).
Proof.
  induction d as [|[k0 v0] d IH]; simpl; [tauto|].
  destruct (str_eqb k k0) eqn:E.
  - apply str_eqb_eq in E. subst. split; [auto | discriminate].
  - apply str_eqb_neq in E. rewrite IH. split; [auto|].
    intros [H|H]; [congruence | assumption].
Qed.

Lemma dict_keys_set d k v :
  dict_keys (dict_set d k v) =
  if dict_mem d k then dict_keys d else dict_keys d ++ [k].
Proof.
  unfold dict_mem. induction d as [|[k0 v0] d IH]; simpl; [reflexivity|].
  destruct (str_eqb k k0) eqn:E; simpl; [reflexivity|].
  rewrite IH. destruct (dict_get d k); reflexivity.
Qed.

Lemma dict_set_fresh d k v :
  dict_get d k = None -> dict_set d k v = d ++ [(k, v)].
Proof.
  induction d as [|[k0 v0] d IH]; simpl; [reflexivity|].
  destruct (str_eqb k k0); [discriminate|].
  intros H. now rewrite IH.
Qed.

Lemma dict_get_app d1 d2 k :
  dict_get (d1 ++ d2) k =
  match dict_get d1 k with Some v => Some v | None => dict_get d2 k end.
Proof.
  induction d1 as [|[k0 v0] d1 IH]; simpl; [reflexivity|].
  destruct (str_eqb k k0); auto.
Qed.

Lemma dict_get_In d k v : dict_get d k = Some v -> In (k, v) d.
Proof.
  induction d as [|[k0 v0] d IH]; simpl; [discriminate|].
  destruct (str_eqb k k0) eqn:E.
  - apply str_eqb_eq in E. intros [= ->]. subst. now left.
  - auto.
Qed.

Lemma dict_get_NoDup d k v :
  NoDup (dict_keys d) -> In (k, v) d -> dict_get d k = Some v.
Proof.
  induction d as [|[k0 v0] d IH]; simpl; [tauto|].
  intros Hnd [H|H].
  - injection H as -> ->. now rewrite str_eqb_refl.
  - inversion Hnd as [|? ? Hnot Hnd']; subst.
    destruct (str_eqb k k0) eqn:E.
    + apply str_eqb_eq in E. subst k0. exfalso. apply Hnot.
      change k with (fst (k, v)). now apply in_map.
    + auto.
Qed.

End DictFacts.

(* ====================================================================== *)
(** ** The result object *)

Lemma field_names_length : List.length field_names = 16.
Proof. reflexivity. Qed.

Lemma field_names_NoDup : NoDup field_names.
Proof.
  unfold field_names.
  repeat (constructor; [simpl; intuition discriminate|]). constructor.
Qed.

Lemma to_dict_keys (r : HerbExtractionResult) :
  dict_keys (to_dict r) = field_names.
Proof. reflexivity. Qed.

Lemma of_dict_to_dict (r : HerbExtractionResult) :
  of_dict (to_dict r) = Some r.
Proof. destruct r; reflexivity. Qed.

Lemma getattr_declared (r : HerbExtractionResult) (name : str) :
  In name field_names <-> exists v, getattr r name = Some v.
Proof.
  unfold getattr. rewrite <- (to_dict_keys r), <- dict_get_In_keys.
  destruct (dict_get (to_dict r) name) as [v|].
  - split; [eauto | discriminate].
  - split; [congruence | intros [v ?]; discriminate].
Qed.

(** Case analysis on a name against the sixteen tests of [setattr]. *)
Ltac by_field name :=
  repeat match goal with
    | |- context [str_eqb name ?k] =>
        let E := fresh "E" in
        destruct (str_eqb name k) eqn:E;
        [apply str_eqb_eq in E; try subst name|]
    end.

Lemma to_dict_setattr (r : HerbExtractionResult) (name v : str) :
  to_dict (setattr r name v) =
  map (fun item => if str_eqb name (fst item) then (fst item, v) else item)
    (to_dict r).
Proof.
  unfold setattr. by_field name; try reflexivity.
  unfold to_dict, map, fst.
  repeat match goal with H : str_eqb name _ = false |- _ =>
    rewrite H; clear H end.
  reflexivity.
Qed.

Lemma dict_get_map_update {V} (d : dict V) (k k' : str) (v : V) :
  dict_get
    (map (fun item => if str_eqb k (fst item) then (fst item, v) else item) d)
    k' =
  if str_eqb k k' then
    match dict_get d k' with Some _ => Some v | None => None end
  else dict_get d k'.
Proof.
  induction d as [|[k0 v0] d IH]; simpl.
  - destruct (str_eqb k k'); reflexivity.
  - destruct (str_eqb k k0) eqn:E0; simpl; rewrite IH; clear IH.
    + apply str_eqb_eq in E0. subst k0.
      destruct (str_eqb k' k) eqn:E1.
      * apply str_eqb_eq in E1. subst. now rewrite str_eqb_refl.
      * destruct (str_eqb k k'); reflexivity.
    + destruct (str_eqb k' k0) eqn:E1; [|reflexivity].
      apply str_eqb_eq in E1. subst k0. now rewrite E0.
Qed.

Lemma getattr_setattr_same (r : HerbExtractionResult) (name v : str) :
  In name field_names -> getattr (setattr r name v) name = Some v.
Proof.
  intros H. apply (getattr_declared r) in H. destruct H as [v0 H].
  unfold getattr in *.
  now rewrite to_dict_setattr, dict_get_map_update, str_eqb_refl, H.
Qed.

Lemma getattr_setattr_other (r : HerbExtractionResult) (name name' v : str) :
  name <> name' -> getattr (setattr r name v) name' = getattr r name'.
Proof.
  intros H. apply str_eqb_neq in H. unfold getattr.
  now rewrite to_dict_setattr, dict_get_map_update, H.
Qed.

(** The keys of both prompt tables are declared fields; the repair table
    has no entry for [title], [authors] and [biological_activity]. *)
Lemma extraction_prompts_keys : dict_keys extraction_prompts = field_names.
Proof. reflexivity. Qed.

Lemma re_extraction_prompts_keys :
  dict_keys re_extraction_prompts =
  [ py "scientific_name"; py "year"; py "medicinal_use"; py "dose";
    py "phytochemicals"; py "plant_part_used"; py "formulation";
    py "botanic_description"; py "toxicity"; py "adverse_reactions";
    py "health_benefits"; py "nutritional_benefits"; py "reference" ].
Proof. reflexivity. Qed.

Lemma re_extraction_prompts_declared (name prompt_template : str) :
  dict_get re_extraction_prompts name = Some prompt_template ->
  In name field_names.
Proof.
  intros H.
  assert (Hk : In name (dict_keys re_extraction_prompts))
    by (apply dict_get_In_keys; congruence).
  rewrite re_extraction_prompts_keys in Hk. unfold field_names.
  simpl in Hk |- *. intuition (subst; auto 20).
Qed.

(* ====================================================================== *)
(** ** Validation *)

Lemma validate_extraction_map (r : HerbExtractionResult) :
  validate_extraction r =
  map (fun item => (fst item, validate_field (fst item) (snd item)))
    (to_dict r).
Proof. reflexivity. Qed.

Lemma validate_extraction_keys (r : HerbExtractionResult) :
  dict_keys (validate_extraction r) = field_names.
Proof. reflexivity. Qed.

Lemma validate_extraction_get (r : HerbExtractionResult) (name v : str) :
  In (name, v) (to_dict r) ->
  dict_get (validate_extraction r) name = Some (validate_field name v).
Proof.
  intros H. apply dict_get_NoDup.
  - rewrite validate_extraction_keys. apply field_names_NoDup.
  - rewrite validate_extraction_map.
    apply (in_map (fun item => (fst item, validate_field (fst item) (snd item)))
             _ _ H).
Qed.

Lemma getattr_In (r : HerbExtractionResult) (name v : str) :
  getattr r name = Some v <-> In (name, v) (to_dict r).
Proof.
  split; [apply dict_get_In|].
  apply dict_get_NoDup. rewrite to_dict_keys. apply field_names_NoDup.
Qed.

(** The three tiers of [validate_field], read off its two tests. *)
Lemma validate_field_tiers (name v : str) :
  let fv := validate_field name v in
  field_name fv = name /\ value fv = v /\
  ( (In v [py "Not mentioned"; py "Not available"; py ""] /\
     status fv = MISSING /\ confidence fv = 0%Q)
    \/ (~ In v [py "Not mentioned"; py "Not available"; py ""] /\
        len (strip v) < 5 /\
        status fv = PARTIAL /\ confidence fv = (3 # 10)%Q)
    \/ (~ In v [py "Not mentioned"; py "Not available"; py ""] /\
        5 <= len (strip v) /\
        status fv = COMPLETE /\ confidence fv = (9 # 10)%Q) ).
Proof.
  unfold validate_field.
  destruct (in_tuple v _) eqn:E.
  - apply in_tuple_In in E. simpl. auto 10.
  - apply in_tuple_not_In in E.
    destruct (len (strip v) <? 5) eqn:L.
    + apply Nat.ltb_lt in L. simpl. auto 10.
    + apply Nat.ltb_ge in L. simpl. auto 10.
Qed.

Lemma get_missing_fields_acc (vs : dict FieldValidation) (acc : list str) :
  fold_left
    (fun missing item =>
       if needs_attention (status (snd item)) then missing ++ [fst item]
       else missing) vs acc =
  acc ++ map fst (filter (fun item => needs_attention (status (snd item))) vs).
Proof.
  revert acc. induction vs as [|item vs IH]; intros acc; simpl.
  - now rewrite app_nil_r.
  - rewrite IH. destruct (needs_attention (status (snd item))); simpl.
    + now rewrite <- app_assoc.
    + reflexivity.
Qed.

Lemma get_missing_fields_filter (vs : dict FieldValidation) :
  get_missing_fields vs =
  map fst (filter (fun item => needs_attention (status (snd item))) vs).
Proof. unfold get_missing_fields. now rewrite get_missing_fields_acc. Qed.

Lemma needs_attention_spec (s : ExtractionStatus) :
  needs_attention s = true <-> s = MISSING \/ s = PARTIAL.
Proof. destruct s; simpl; intuition discriminate. Qed.

(* ====================================================================== *)
(** ** The stages over an arbitrary service *)

Section ExtractionProperties.

Context {World : Type}.
Variable invoke : str -> World -> outcome str * World.

Lemma for_each_app {X S} (xs ys : list X) (body : S -> X -> M World S)
  (s : S) (w : World) :
  for_each (xs ++ ys) body s w =
  match for_each xs body s w with
  | (Ret s', w') => for_each ys body s' w'
  | (Exc e, w') => (Exc e, w')
  end.
Proof.
  revert s w. induction xs as [|x xs IH]; intros s w; simpl; [reflexivity|].
  unfold bind. destruct (body s x w) as [[s'|e] w']; [apply IH | reflexivity].
Qed.

(** *** Extraction *)

(** One iteration stores exactly one value under the field's name and never
    raises: the trimmed completion, or ["Not mentioned"] when the call
    raised. *)
Lemma extract_field_returns (text : str) (d : dict str) (name t : str)
  (w : World) :
  extract_field invoke text d (name, t) w =
  match invoke (format_prompt t text) w with
  | (Ret result, w') => (Ret (dict_set d name (strip result)), w')
  | (Exc _, w') => (Ret (dict_set d name (py "Not mentioned")), w')
  end.
Proof.
  unfold extract_field, try_except, bind, ret.
  destruct (invoke (format_prompt t text) w) as [[result|e] w']; reflexivity.
Qed.

Lemma extract_loop_returns (text : str) (items : dict str) (d : dict str)
  (w : World) :
  exists d' w',
    for_each items (extract_field invoke text) d w = (Ret d', w') /\
    (forall k, ~ In k (dict_keys items) -> dict_get d' k = dict_get d k) /\
    (NoDup (dict_keys d ++ dict_keys items) ->
     dict_keys d' = dict_keys d ++ dict_keys items).
Proof.
  revert d w. induction items as [|[name t] items IH]; intros d w.
  - exists d, w. simpl. rewrite app_nil_r. auto.
  - cbn [for_each]. unfold bind at 1. rewrite extract_field_returns.
    destruct (invoke (format_prompt t text) w) as [[result|e] w1].
    + destruct (IH (dict_set d name (strip result)) w1)
        as (d' & w' & Hrun & Hframe & Hkeys).
      exists d', w'. split; [exact Hrun|]. split.
      * intros k Hk. simpl in Hk. rewrite Hframe by tauto.
        apply dict_get_set_other. intros ->. tauto.
      * intros Hnd. simpl in Hnd.
        assert (Hfresh : dict_mem d name = false).
        { unfold dict_mem. destruct (dict_get d name) eqn:G; [|reflexivity].
          exfalso. apply NoDup_remove_2 in Hnd. apply Hnd.
          apply in_or_app. left. apply dict_get_In_keys. congruence. }
        rewrite Hkeys; rewrite dict_keys_set, Hfresh, <- app_assoc;
          [reflexivity | exact Hnd].
    + destruct (IH (dict_set d name (py "Not mentioned")) w1)
        as (d' & w' & Hrun & Hframe & Hkeys).
      exists d', w'. split; [exact Hrun|]. split.
      * intros k Hk. simpl in Hk. rewrite Hframe by tauto.
        apply dict_get_set_other. intros ->. tauto.
      * intros Hnd. simpl in Hnd.
        assert (Hfresh : dict_mem d name = false).
        { unfold dict_mem. destruct (dict_get d name) eqn:G; [|reflexivity].
          exfalso. apply NoDup_remove_2 in Hnd. apply Hnd.
          apply in_or_app. left. apply dict_get_In_keys. congruence. }
        rewrite Hkeys; rewrite dict_keys_set, Hfresh, <- app_assoc;
          [reflexivity | exact Hnd].
Qed.

Lemma dict_get_map_values {V W} (f : str -> V -> W) (l : dict V) (k : str) :
  dict_get (map (fun item => (fst item, f (fst item) (snd item))) l) k =
  option_map (f k) (dict_get l k).
Proof.
  induction l as [|[k0 v0] l IH]; simpl; [reflexivity|].
  destruct (str_eqb k k0) eqn:E; [|exact IH].
  apply str_eqb_eq in E. now subst.
Qed.

Lemma make_result_to_dict (d : dict str) :
  to_dict (make_result d) =
  map (fun item => (fst item, dict_get_default d (fst item) (snd item)))
    (to_dict (make_result [])).
Proof. reflexivity. Qed.

Lemma getattr_make_result (d : dict str) (name : str) :
  getattr (make_result d) name =
  option_map (dict_get_default d name) (field_sentinel name).
Proof.
  unfold field_sentinel, getattr.
  now rewrite make_result_to_dict, dict_get_map_values.
Qed.

Lemma getattr_make_result_stored (d : dict str) (name v : str) :
  In name field_names -> dict_get d name = Some v ->
  getattr (make_result d) name = Some v.
Proof.
  intros Hin Hget. rewrite getattr_make_result.
  apply (getattr_declared (make_result [])) in Hin. destruct Hin as [s Hs].
  unfold field_sentinel. rewrite Hs. simpl.
  unfold dict_get_default. now rewrite Hget.
Qed.

Lemma extraction_prompts_split (pre post : dict str) (name t : str) :
  extraction_prompts = pre ++ (name, t) :: post ->
  In name field_names /\ ~ In name (dict_keys post) /\
  ~ In name (dict_keys pre).
Proof.
  intros H. pose proof field_names_NoDup as Hnd.
  rewrite <- extraction_prompts_keys in *. rewrite H in *.
  unfold dict_keys in *. rewrite map_app in *. simpl in *.
  split; [apply in_or_app; right; now left|].
  apply NoDup_remove_2 in Hnd. split; intros Hin; apply Hnd;
    apply in_or_app; auto.
Qed.

(** The value extraction leaves in a field is decided by that field's own
    call, issued in the world left by the earlier fields. *)
Lemma extract_trace (text : str) (pre post : dict str) (name t : str)
  (w : World) (d1 : dict str) (w1 : World) :
  extraction_prompts = pre ++ (name, t) :: post ->
  for_each pre (extract_field invoke text) [] w = (Ret d1, w1) ->
  exists r w',
    extract_initial_information invoke text w = (Ret r, w') /\
    getattr r name =
    Some (match fst (invoke (format_prompt t text) w1) with
          | Ret result => strip result
          | Exc _ => py "Not mentioned"
          end).
Proof.
  intros Hsplit Hpre.
  destruct (extraction_prompts_split _ _ _ _ Hsplit) as (Hdecl & Hpost & _).
  unfold extract_initial_information, bind at 1.
  rewrite Hsplit, for_each_app, Hpre. cbn [for_each]. unfold bind at 1.
  rewrite extract_field_returns.
  destruct (invoke (format_prompt t text) w1) as [[result|e] w2]; cbn [fst].
  - destruct (extract_loop_returns text post
                (dict_set d1 name (strip result)) w2)
      as (d' & w' & Hrun & Hframe & _).
    rewrite Hrun. exists (make_result d'), w'. split; [reflexivity|].
    apply getattr_make_result_stored; [exact Hdecl|].
    rewrite Hframe by exact Hpost. apply dict_get_set_same.
  - destruct (extract_loop_returns text post
                (dict_set d1 name (py "Not mentioned")) w2)
      as (d' & w' & Hrun & Hframe & _).
    rewrite Hrun. exists (make_result d'), w'. split; [reflexivity|].
    apply getattr_make_result_stored; [exact Hdecl|].
    rewrite Hframe by exact Hpost. apply dict_get_set_same.
Qed.

(** Extraction never raises; the dictionary it fills has exactly the
    sixteen field names as keys, and every field of the result object is
    read from it. *)
Lemma extract_returns (text : str) (w : World) :
  exists d r w',
    for_each extraction_prompts (extract_field invoke text) [] w
    = (Ret d, w') /\
    dict_keys d = field_names /\
    extract_initial_information invoke text w = (Ret r, w') /\
    r = make_result d /\
    forall name, In name field_names ->
      exists v, dict_get d name = Some v /\ getattr r name = Some v.
Proof.
  destruct (extract_loop_returns text extraction_prompts [] w)
    as (d & w' & Hrun & _ & Hkeys).
  assert (Hk : dict_keys d = field_names).
  { rewrite Hkeys;
      [reflexivity | change (NoDup field_names); apply field_names_NoDup]. }
  exists d, (make_result d), w'. repeat split; try assumption.
  - unfold extract_initial_information, bind. now rewrite Hrun.
  - intros name Hin. rewrite <- Hk in Hin. apply dict_get_In_keys in Hin.
    destruct (dict_get d name) as [v|] eqn:G; [|congruence].
    exists v. split; [reflexivity|].
    apply getattr_make_result_stored; [|exact G].
    rewrite <- Hk. apply dict_get_In_keys. congruence.
Qed.


End ExtractionProperties.

Lemma accepted_spec (lower : str -> str) (result : str) :
  accepted lower result = true <->
  strip result <> [] /\
  ~ In (lower (strip result))
      [py "not mentioned"; py "not available"; py ""].
Proof.
  unfold accepted.
  rewrite !andb_true_iff, negb_true_iff, in_tuple_not_In, !truthy_nonempty.
  split; [tauto|]. intros [H1 H2]. repeat split; try assumption.
  intros ->. apply H1. reflexivity.
Qed.

Section RepairProperties.

Context {World : Type}.
Variable invoke : str -> World -> outcome str * World.
Variable lower : str -> str.

(** *** Re-extraction *)

(** One iteration never raises; it changes the object only through one
    [setattr] on its own field, and only for an accepted completion. *)
Lemma re_extract_field_returns (text : str) (r : HerbExtractionResult)
  (name : str) (w : World) :
  re_extract_field invoke lower text r name w =
  match dict_get re_extraction_prompts name with
  | Some t =>
      match invoke (format_prompt t text) w with
      | (Ret result, w') =>
          (Ret (if accepted lower result
                then setattr r name (strip result) else r), w')
      | (Exc _, w') => (Ret r, w')
      end
  | None => (Ret r, w)
  end.
Proof.
  unfold re_extract_field, try_except, bind, ret.
  destruct (dict_get re_extraction_prompts name) as [t|]; [|reflexivity].
  destruct (invoke (format_prompt t text) w) as [[result|e] w'];
    [|reflexivity].
  destruct (accepted lower result); reflexivity.
Qed.

Lemma repaired_by_cons (text : str) (f : str) (fields : list str)
  (name v : str) :
  repaired_by invoke lower text fields name v ->
  repaired_by invoke lower text (f :: fields) name v.
Proof.
  intros (t & result & w0 & w1 & Hin & H). exists t, result, w0, w1.
  split; [now right | exact H].
Qed.

Lemma repair_loop_returns (text : str) (fields : list str)
  (r : HerbExtractionResult) (w : World) :
  exists r' w',
    for_each fields (re_extract_field invoke lower text) r w = (Ret r', w') /\
    (forall name,
        ~ In name fields \/ dict_get re_extraction_prompts name = None ->
        getattr r' name = getattr r name) /\
    (forall name v,
        getattr r' name = Some v ->
        getattr r name = Some v \/ repaired_by invoke lower text fields name v).
Proof.
  revert r w. induction fields as [|f fields IH]; intros r w.
  - exists r, w. simpl. auto.
  - cbn [for_each]. unfold bind at 1. rewrite re_extract_field_returns.
    assert (Hsame : forall w2,
      exists r' w',
        for_each fields (re_extract_field invoke lower text) r w2
        = (Ret r', w') /\
        (forall name,
            ~ In name (f :: fields) \/
            dict_get re_extraction_prompts name = None ->
            getattr r' name = getattr r name) /\
        (forall name v,
            getattr r' name = Some v ->
            getattr r name = Some v \/
            repaired_by invoke lower text (f :: fields) name v)).
    { intros w2. destruct (IH r w2) as (r' & w' & Hrun & Hframe & Hprov).
      exists r', w'. split; [exact Hrun|]. split.
      - intros name [Hn|Hn]; apply Hframe; [left | now right].
        intros Hin. apply Hn. now right.
      - intros name v Hv. destruct (Hprov name v Hv); [now left|].
        right. now apply repaired_by_cons. }
    destruct (dict_get re_extraction_prompts f) as [t|] eqn:Ht;
      [|apply Hsame].
    destruct (invoke (format_prompt t text) w) as [[result|e] w2] eqn:Hcall;
      [|apply Hsame].
    destruct (accepted lower result) eqn:Hacc; [|apply Hsame].
    destruct (IH (setattr r f (strip result)) w2)
      as (r' & w' & Hrun & Hframe & Hprov).
    exists r', w'. split; [exact Hrun|]. split.
    + intros name Hn.
      assert (Hne : f <> name).
      { intros <-. destruct Hn as [Hn|Hn]; [apply Hn; now left | congruence]. }
      rewrite Hframe.
      * now apply getattr_setattr_other.
      * destruct Hn as [Hn|Hn]; [left | now right].
        intros Hin. apply Hn. now right.
    + intros name v Hv. destruct (Hprov name v Hv) as [Hold|Hnew].
      * destruct (str_eqb f name) eqn:E.
        -- apply str_eqb_eq in E. subst name. right.
           rewrite getattr_setattr_same in Hold
             by (eapply re_extraction_prompts_declared; eassumption).
           injection Hold as <-.
           exists t, result, w, w2. repeat split; auto. now left.
        -- apply str_eqb_neq in E. left.
           now rewrite getattr_setattr_other in Hold.
      * right. now apply repaired_by_cons.
Qed.

Lemma re_extract_missing_fields_unfold (text : str) (fields : list str)
  (r : HerbExtractionResult) (w : World) :
  re_extract_missing_fields invoke lower text fields r w =
  for_each fields (re_extract_field invoke lower text) r w.
Proof.
  unfold re_extract_missing_fields. now rewrite of_dict_to_dict.
Qed.

(** The value repair leaves in a selected field is decided by the last
    iteration for that field. *)
Lemma repair_trace (text : str) (pre post : list str) (name t : str)
  (initial r1 : HerbExtractionResult) (w w1 : World) :
  dict_get re_extraction_prompts name = Some t ->
  ~ In name post ->
  for_each pre (re_extract_field invoke lower text) initial w = (Ret r1, w1) ->
  exists r' w',
    re_extract_missing_fields invoke lower text (pre ++ name :: post)
      initial w = (Ret r', w') /\
    getattr r' name =
    match fst (invoke (format_prompt t text) w1) with
    | Ret result =>
        if accepted lower result then Some (strip result)
        else getattr r1 name
    | Exc _ => getattr r1 name
    end.
Proof.
  intros Ht Hpost Hpre.
  rewrite re_extract_missing_fields_unfold, for_each_app, Hpre.
  cbn [for_each]. unfold bind at 1. rewrite re_extract_field_returns, Ht.
  destruct (invoke (format_prompt t text) w1) as [[result|e] w2]; cbn [fst].
  - destruct (repair_loop_returns text post
                (if accepted lower result
                 then setattr r1 name (strip result) else r1) w2)
      as (r' & w' & Hrun & Hframe & _).
    exists r', w'. split; [exact Hrun|].
    rewrite Hframe by now left.
    destruct (accepted lower result); [|reflexivity].
    apply getattr_setattr_same.
    eapply re_extraction_prompts_declared; eassumption.
  - destruct (repair_loop_returns text post r1 w2)
      as (r' & w' & Hrun & Hframe & _).
    exists r', w'. split; [exact Hrun|]. apply Hframe. now left.
Qed.

(** *** The driver *)

Lemma extract_herb_information_unfold (text : str) (verbose : bool)
  (w : World) :
  extract_herb_information invoke lower text verbose w =
  match extract_initial_information invoke text w with
  | (Ret extraction, w1) =>
      match get_missing_fields (validate_extraction extraction) with
      | [] => (Ret extraction, w1)
      | (_ :: _) as missing_fields =>
          re_extract_missing_fields invoke lower text missing_fields
            extraction w1
      end
  | (Exc e, w1) => (Exc e, w1)
  end.
Proof.
  unfold extract_herb_information, bind at 1.
  destruct (extract_initial_information invoke text w) as [[e|e] w1];
    [|reflexivity].
  unfold bind, ret.
  destruct (get_missing_fields (validate_extraction e)) as [|f fs];
    [reflexivity|].
  cbn [nonempty].
  destruct (re_extract_missing_fields invoke lower text (f :: fs) e w1)
    as [[r|x] w2]; reflexivity.
Qed.

(** The driver never raises and hands back an object with all sixteen
    fields. *)
Lemma pipeline_returns (text : str) (verbose : bool) (w : World) :
  exists r w',
    extract_herb_information invoke lower text verbose w = (Ret r, w') /\
    dict_keys (to_dict r) = field_names /\
    forall name, In name field_names -> exists v, getattr r name = Some v.
Proof.
  rewrite extract_herb_information_unfold.
  destruct (extract_returns invoke text w)
    as (d & e & w1 & _ & _ & Hrun & _ & _).
  rewrite Hrun.
  destruct (get_missing_fields (validate_extraction e)) as [|f fs].
  - exists e, w1. split; [reflexivity|]. split; [apply to_dict_keys|].
    intros name. apply getattr_declared.
  - rewrite re_extract_missing_fields_unfold.
    destruct (repair_loop_returns text (f :: fs) e w1)
      as (r' & w' & Hrun' & _ & _).
    exists r', w'. split; [exact Hrun'|]. split; [apply to_dict_keys|].
    intros name. apply getattr_declared.
Qed.

End RepairProperties.

(** *** Counting the calls *)

Section Calls.

Context {World : Type}.
Variable invoke : str -> World -> outcome str * World.

Lemma extract_loop_calls (text : str) (items : dict str) (d : dict str)
  (w : World) (n : nat) :
  exists d' w',
    for_each items (extract_field (counted invoke) text) d (w, n)
    = (Ret d', (w', n + List.length items)).
Proof.
  revert d w n. induction items as [|[name t] items IH]; intros d w n.
  - exists d, w. simpl. now rewrite Nat.add_0_r.
  - cbn [for_each List.length]. unfold bind at 1.
    rewrite extract_field_returns. unfold counted at 1.
    rewrite Nat.add_succ_r, <- Nat.add_succ_l.
    destruct (invoke (format_prompt t text) w) as [[result|e] w1]; apply IH.
Qed.

Lemma extract_calls (text : str) (w : World) (n : nat) :
  exists r w',
    extract_initial_information (counted invoke) text (w, n)
    = (Ret r, (w', n + 16)).
Proof.
  destruct (extract_loop_calls text extraction_prompts [] w n)
    as (d & w' & Hrun).
  exists (make_result d), w'.
  unfold extract_initial_information, bind. now rewrite Hrun.
Qed.

Lemma repair_calls (lower : str -> str) (text : str) (fields : list str)
  (r : HerbExtractionResult) (w : World) (n : nat) :
  exists r' w',
    re_extract_missing_fields (counted invoke) lower text fields r (w, n)
    = (Ret r',
       (w', n + List.length (filter (dict_mem re_extraction_prompts) fields))).
Proof.
  rewrite re_extract_missing_fields_unfold.
  revert r w n. induction fields as [|f fields IH]; intros r w n.
  - exists r, w. simpl. now rewrite Nat.add_0_r.
  - cbn [for_each filter]. unfold bind at 1.
    rewrite re_extract_field_returns. unfold dict_mem at 1.
    destruct (dict_get re_extraction_prompts f) as [t|]; [|apply IH].
    cbn [List.length]. unfold counted at 1.
    rewrite Nat.add_succ_r, <- Nat.add_succ_l.
    destruct (invoke (format_prompt t text) w) as [[result|e] w1]; apply IH.
Qed.

End Calls.

(* ====================================================================== *)
(** ** Validation: tiers and the list of fields to repair *)

Lemma lower_ascii_length (s : str) :
  List.length (lower_ascii s) = List.length s.
Proof. unfold lower_ascii. apply length_map. Qed.

Lemma filter_by_key {V} (P : V -> bool) (d : dict V) :
  NoDup (dict_keys d) ->
  map fst (filter (fun item => P (snd item)) d) =
  filter (fun k => match dict_get d k with Some v => P v | None => false end)
    (dict_keys d).
Proof.
  unfold dict_keys.
  induction d as [|[k0 v0] d IH]; intros Hnd; [reflexivity|].
  inversion Hnd as [|? ? Hnot Hnd']; subst.
  cbn [filter map fst snd dict_get]. rewrite str_eqb_refl.
  assert (Htail :
    filter (fun k => match (if str_eqb k k0 then Some v0 else dict_get d k)
                     with Some v => P v | None => false end) (map fst d) =
    filter (fun k => match dict_get d k with Some v => P v | None => false end)
      (map fst d)).
  { apply filter_ext_in. intros k Hk.
    destruct (str_eqb k k0) eqn:E; [|reflexivity].
    apply str_eqb_eq in E. subst. contradiction. }
  rewrite Htail, <- (IH Hnd'). destruct (P v0); reflexivity.
Qed.

(** C2.  For every record, the validation entry of each field carries the
    field's value and exactly one of three tiers: MISSING with confidence
    0.0 iff the value is "Not mentioned", "Not available" or empty;
    otherwise PARTIAL with confidence 0.3 iff the trimmed value is shorter
    than 5; otherwise COMPLETE with confidence 0.9.  A value outside the
    sentinels of trimmed length 4 is PARTIAL, one of trimmed length 5 is
    COMPLETE. *)
Theorem C2_validate_three_tiers (r : HerbExtractionResult) (name v : str) :
  getattr r name = Some v ->
  exists fv,
    dict_get (validate_extraction r) name = Some fv /\
    field_name fv = name /\ value fv = v /\
    (status fv = MISSING <->
     In v [py "Not mentioned"; py "Not available"; py ""]) /\
    (status fv = PARTIAL <->
     ~ In v [py "Not mentioned"; py "Not available"; py ""] /\
     len (strip v) < 5) /\
    (status fv = COMPLETE <->
     ~ In v [py "Not mentioned"; py "Not available"; py ""] /\
     5 <= len (strip v)) /\
    confidence fv =
      match status fv with
      | MISSING => 0%Q
      | PARTIAL => (3 # 10)%Q
      | COMPLETE => (9 # 10)%Q
      end /\
    (~ In v [py "Not mentioned"; py "Not available"; py ""] ->
     (len (strip v) = 4 -> status fv = PARTIAL) /\
     (len (strip v) = 5 -> status fv = COMPLETE)).
Proof.
  intros Hget. apply getattr_In in Hget.
  exists (validate_field name v).
  split; [now apply validate_extraction_get|].
  destruct (validate_field_tiers name v) as (Hn & Hv & Htier).
  split; [exact Hn|]. split; [exact Hv|].
  destruct Htier as [(Hin & Hs & Hc) | [(Hin & Hl & Hs & Hc)
                                       | (Hin & Hl & Hs & Hc)]];
    rewrite Hs, Hc;
    repeat split; try discriminate; try tauto; try lia;
    intros; try tauto; try lia.
Qed.

Lemma C2_validate_three_tiers_witness :
  getattr (uniform (py " abcd ")) (py "title") = Some (py " abcd ") /\
  exists fv,
    dict_get (validate_extraction (uniform (py " abcd "))) (py "title")
    = Some fv /\
    status fv = PARTIAL /\ confidence fv = (3 # 10)%Q.
Proof.
  split; [reflexivity|].
  destruct (C2_validate_three_tiers (uniform (py " abcd ")) (py "title")
              (py " abcd ") eq_refl)
    as (fv & Hfv & _ & _ & _ & Hpartial & _ & Hconf & _).
  assert (Hst : status fv = PARTIAL).
  { apply Hpartial. split; [cbn; intuition discriminate | cbn; lia]. }
  exists fv. split; [exact Hfv|]. split; [exact Hst|].
  rewrite Hconf, Hst. reflexivity.
Defined.

(** C10.  Validation compares the raw value with the sentinels by exact
    equality and trims only for the length test: the entry is MISSING
    exactly for the three literal values; a non-empty value made of white
    space only is PARTIAL with confidence 0.3; a value that differs from a
    sentinel only by letter case or surrounding white space is COMPLETE
    with confidence 0.9. *)
Theorem C10_validate_compares_raw_value (r : HerbExtractionResult)
  (name v : str) :
  getattr r name = Some v ->
  exists fv,
    dict_get (validate_extraction r) name = Some fv /\
    (status fv = MISSING <->
     v = py "Not mentioned" \/ v = py "Not available" \/ v = py "") /\
    (v <> [] -> strip v = [] ->
     status fv = PARTIAL /\ confidence fv = (3 # 10)%Q) /\
    (forall s, In s [py "Not mentioned"; py "Not available"] ->
       v <> s -> lower_ascii (strip v) = lower_ascii s ->
       status fv = COMPLETE /\ confidence fv = (9 # 10)%Q).
Proof.
  intros Hget. apply getattr_In in Hget.
  exists (validate_field name v).
  split; [now apply validate_extraction_get|].
  destruct (validate_field_tiers name v) as (_ & _ & Htier).
  split; [|split].
  - destruct Htier as [(Hin & Hs & _) | [(Hin & _ & Hs & _)
                                        | (Hin & _ & Hs & _)]];
      rewrite Hs; simpl in Hin |- *; split; intros H;
      try discriminate; try reflexivity; intuition congruence.
  - intros Hne Hstrip.
    destruct Htier as [(Hin & _) | [(_ & _ & Hs & Hc) | (_ & Hl & _)]].
    + exfalso. simpl in Hin.
      destruct Hin as [<- | [<- | [<- | []]]];
        solve [discriminate Hstrip | now apply Hne].
    + now split.
    + rewrite Hstrip in Hl. simpl in Hl. lia.
  - intros s Hs Hne Hlow.
    assert (Hlen : len (strip v) = 13).
    { unfold len. rewrite <- (lower_ascii_length (strip v)), Hlow.
      simpl in Hs. destruct Hs as [<- | [<- | []]]; reflexivity. }
    destruct Htier as [(Hin & _) | [(_ & Hl & _) | (_ & _ & Hst & Hc)]].
    + exfalso. simpl in Hin, Hs.
      destruct Hin as [<- | [<- | [<- | []]]];
        destruct Hs as [<- | [<- | []]];
        solve [now apply Hne | discriminate Hlow].
    + lia.
    + now split.
Qed.

Lemma C10_validate_compares_raw_value_witness :
  (exists fv,
     dict_get (validate_extraction (uniform (py "   "))) (py "year")
     = Some fv /\
     status fv = PARTIAL /\ confidence fv = (3 # 10)%Q) /\
  (exists fv,
     dict_get (validate_extraction (uniform (py " Not mentioned ")))
       (py "dose") = Some fv /\
     status fv = COMPLETE /\ confidence fv = (9 # 10)%Q) /\
  (exists fv,
     dict_get (validate_extraction (uniform (py "not mentioned")))
       (py "dose") = Some fv /\
     status fv = COMPLETE /\ confidence fv = (9 # 10)%Q).
Proof.
  split; [|split].
  - destruct (C10_validate_compares_raw_value (uniform (py "   "))
                (py "year") (py "   ") eq_refl)
      as (fv & Hfv & _ & Hblank & _).
    exists fv. split; [exact Hfv|]. apply Hblank; [discriminate | reflexivity].
  - destruct (C10_validate_compares_raw_value
                (uniform (py " Not mentioned ")) (py "dose")
                (py " Not mentioned ") eq_refl)
      as (fv & Hfv & _ & _ & Hvariant).
    exists fv. split; [exact Hfv|].
    apply (Hvariant (py "Not mentioned"));
      [left; reflexivity | discriminate | reflexivity].
  - destruct (C10_validate_compares_raw_value
                (uniform (py "not mentioned")) (py "dose")
                (py "not mentioned") eq_refl)
      as (fv & Hfv & _ & _ & Hvariant).
    exists fv. split; [exact Hfv|].
    apply (Hvariant (py "Not mentioned"));
      [left; reflexivity | discriminate | reflexivity].
Defined.

(** C8.  [get_missing_fields] returns exactly the fields whose status is
    MISSING or PARTIAL, in the order of the report, which for a validated
    record is the declaration order of the fields; the driver runs the
    repair stage iff that list is non-empty, and otherwise returns the
    initial extraction as it is, without a further call. *)
Theorem C8_missing_fields_gate_repair :
  (forall vs : dict FieldValidation,
      get_missing_fields vs =
      map fst
        (filter (fun item =>
                   match status (snd item) with
                   | MISSING | PARTIAL => true
                   | COMPLETE => false
                   end) vs)) /\
  (forall r : HerbExtractionResult,
      get_missing_fields (validate_extraction r) =
      filter (fun name =>
                match dict_get (validate_extraction r) name with
                | Some fv =>
                    match status fv with
                    | MISSING | PARTIAL => true
                    | COMPLETE => false
                    end
                | None => false
                end) field_names) /\
  (forall (World : Type) (invoke : str -> World -> outcome str * World)
          (lower : str -> str) (text : str) (verbose : bool) (w : World),
      extract_herb_information invoke lower text verbose w =
      match extract_initial_information invoke text w with
      | (Ret extraction, w1) =>
          match get_missing_fields (validate_extraction extraction) with
          | [] => (Ret extraction, w1)
          | (_ :: _) as missing_fields =>
              re_extract_missing_fields invoke lower text missing_fields
                extraction w1
          end
      | (Exc e, w1) => (Exc e, w1)
      end).
Proof.
  split; [|split].
  - intros vs. apply get_missing_fields_filter.
  - intros r. rewrite get_missing_fields_filter.
    rewrite <- (validate_extraction_keys r).
    apply (filter_by_key (fun fv => needs_attention (status fv))).
    rewrite validate_extraction_keys. apply field_names_NoDup.
  - intros. apply extract_herb_information_unfold.
Qed.

(* ====================================================================== *)
(** ** Extraction: what a field holds after a failed or an empty answer *)

(** The sentinel of the constructor's default and the sentinel named in the
    prompt agree for every field. *)
Lemma extraction_prompts_name_sentinels :
  forallb prompt_names_sentinel extraction_prompts = true.
Proof. vm_compute. reflexivity. Qed.

Lemma field_sentinel_cases (name : str) :
  In name field_names ->
  (In name [py "title"; py "authors"; py "year"] /\
   field_sentinel name = Some (py "Not available")) \/
  (~ In name [py "title"; py "authors"; py "year"] /\
   field_sentinel name = Some (py "Not mentioned")).
Proof.
  unfold field_names. cbn [In].
  intros H.
  repeat (destruct H as [<- | H];
          [first [ left; split; [cbn; tauto | reflexivity]
                 | right; split; [cbn; intuition discriminate | reflexivity] ]
          |]).
  contradiction.
Qed.

(** C1, on the code.  When the call for a field raises during extraction,
    the field holds "Not mentioned" in the returned record, whatever the
    field: for [title], [authors] and [year], whose configured sentinel is
    "Not available", the stored value is not the field's own sentinel; for
    the thirteen other fields it is. *)
Theorem C1_failed_call_stores_not_mentioned
  (World : Type) (invoke : str -> World -> outcome str * World)
  (text : str) (pre post : dict str) (name t : str)
  (w : World) (d1 : dict str) (w1 : World) (e : Exception) (w2 : World) :
  extraction_prompts = pre ++ (name, t) :: post ->
  for_each pre (extract_field invoke text) [] w = (Ret d1, w1) ->
  invoke (format_prompt t text) w1 = (Exc e, w2) ->
  exists r w',
    extract_initial_information invoke text w = (Ret r, w') /\
    getattr r name = Some (py "Not mentioned") /\
    (In name [py "title"; py "authors"; py "year"] ->
     field_sentinel name = Some (py "Not available") /\
     getattr r name <> field_sentinel name) /\
    (~ In name [py "title"; py "authors"; py "year"] ->
     getattr r name = field_sentinel name).
Proof.
  intros Hsplit Hpre Hcall.
  destruct (extract_trace invoke text pre post name t w d1 w1 Hsplit Hpre)
    as (r & w' & Hrun & Hget).
  rewrite Hcall in Hget. cbn [fst] in Hget.
  exists r, w'. split; [exact Hrun|]. split; [exact Hget|].
  destruct (extraction_prompts_split _ _ _ _ Hsplit) as (Hdecl & _ & _).
  destruct (field_sentinel_cases name Hdecl) as [[Hin Hs] | [Hout Hs]];
    rewrite Hs, Hget; split; intros H; try contradiction.
  - split; [reflexivity | discriminate].
  - reflexivity.
Qed.

Lemma C1_failed_call_stores_not_mentioned_witness :
  exists r w',
    extract_initial_information scripted (py "paper") [] = (Ret r, w') /\
    getattr r (py "title") = Some (py "Not mentioned") /\
    field_sentinel (py "title") = Some (py "Not available").
Proof.
  destruct (C1_failed_call_stores_not_mentioned
              (list (outcome str)) scripted (py "paper")
              (firstn 0 extraction_prompts) (skipn 1 extraction_prompts)
              (py "title")
              (dict_get_default extraction_prompts (py "title") [])
              [] [] [] (Error (py "service unavailable")) []
              eq_refl eq_refl eq_refl)
    as (r & w' & Hrun & Hget & Htitle & _).
  exists r, w'. split; [exact Hrun|]. split; [exact Hget|].
  apply Htitle. left. reflexivity.
Defined.

(** C9.  When the completion for a field is empty after trimming, the
    field holds the empty string in the returned record, which is not the
    field's sentinel, and validation of that record classifies the field
    as MISSING with confidence 0.0. *)
Theorem C9_empty_response_stored_empty
  (World : Type) (invoke : str -> World -> outcome str * World)
  (text : str) (pre post : dict str) (name t : str)
  (w : World) (d1 : dict str) (w1 : World) (result : str) (w2 : World) :
  extraction_prompts = pre ++ (name, t) :: post ->
  for_each pre (extract_field invoke text) [] w = (Ret d1, w1) ->
  invoke (format_prompt t text) w1 = (Ret result, w2) ->
  strip result = [] ->
  exists r w',
    extract_initial_information invoke text w = (Ret r, w') /\
    getattr r name = Some (py "") /\
    field_sentinel name <> Some (py "") /\
    exists fv,
      dict_get (validate_extraction r) name = Some fv /\
      value fv = py "" /\ status fv = MISSING /\ confidence fv = 0%Q.
Proof.
  intros Hsplit Hpre Hcall Hempty.
  destruct (extract_trace invoke text pre post name t w d1 w1 Hsplit Hpre)
    as (r & w' & Hrun & Hget).
  rewrite Hcall in Hget. cbn [fst] in Hget. rewrite Hempty in Hget.
  exists r, w'. split; [exact Hrun|]. split; [exact Hget|]. split.
  - destruct (extraction_prompts_split _ _ _ _ Hsplit) as (Hdecl & _ & _).
    destruct (field_sentinel_cases name Hdecl) as [[_ Hs] | [_ Hs]];
      rewrite Hs; discriminate.
  - exists (validate_field name []). split.
    + apply validate_extraction_get. now apply getattr_In.
    + repeat split.
Qed.

Lemma C9_empty_response_stored_empty_witness :
  exists r w',
    extract_initial_information scripted (py "paper")
      [Ret (py "A title"); Ret (py "   ")] = (Ret r, w') /\
    getattr r (py "authors") = Some (py "") /\
    exists fv,
      dict_get (validate_extraction r) (py "authors") = Some fv /\
      status fv = MISSING.
Proof.
  destruct (C9_empty_response_stored_empty
              (list (outcome str)) scripted (py "paper")
              (firstn 1 extraction_prompts) (skipn 2 extraction_prompts)
              (py "authors")
              (dict_get_default extraction_prompts (py "authors") [])
              [Ret (py "A title"); Ret (py "   ")]
              [(py "title", py "A title")] [Ret (py "   ")]
              (py "   ") []
              eq_refl eq_refl eq_refl eq_refl)
    as (r & w' & Hrun & Hget & _ & fv & Hfv & _ & Hst & _).
  exists r, w'. split; [exact Hrun|]. split; [exact Hget|].
  exists fv. split; [exact Hfv | exact Hst].
Defined.

(* ====================================================================== *)
(** ** Repair: acceptance rule and frame *)

(** C3.  In the repair of a selected field that has a repair prompt, the
    completion replaces the value the field holds iff it is non-empty after
    trimming and its lower-cased trimmed form is none of "not mentioned",
    "not available" and the empty string; the value stored is then the
    trimmed completion; otherwise the field keeps the value it held, which
    is its pre-repair value when the field was not selected earlier in the
    list. *)
Theorem C3_repair_acceptance_rule
  (World : Type) (invoke : str -> World -> outcome str * World)
  (lower : str -> str) (text : str) (pre post : list str) (name t : str)
  (initial r1 : HerbExtractionResult) (w w1 : World)
  (result : str) (w2 : World) :
  dict_get re_extraction_prompts name = Some t ->
  ~ In name post ->
  for_each pre (re_extract_field invoke lower text) initial w = (Ret r1, w1) ->
  invoke (format_prompt t text) w1 = (Ret result, w2) ->
  exists r' w',
    re_extract_missing_fields invoke lower text (pre ++ name :: post)
      initial w = (Ret r', w') /\
    (strip result <> [] /\
     ~ In (lower (strip result))
         [py "not mentioned"; py "not available"; py ""] ->
     getattr r' name = Some (strip result)) /\
    (~ (strip result <> [] /\
        ~ In (lower (strip result))
            [py "not mentioned"; py "not available"; py ""]) ->
     getattr r' name = getattr r1 name) /\
    (~ In name pre -> getattr r1 name = getattr initial name).
Proof.
  intros Ht Hpost Hpre Hcall.
  destruct (repair_trace invoke lower text pre post name t initial r1 w w1
              Ht Hpost Hpre) as (r' & w' & Hrun & Hget).
  rewrite Hcall in Hget. cbn [fst] in Hget.
  exists r', w'. split; [exact Hrun|].
  pose proof (accepted_spec lower result) as Hacc.
  destruct (accepted lower result).
  - split; [intros _; exact Hget|]. split.
    + intros Hno. exfalso. apply Hno. now apply Hacc.
    + intros Hnot.
      destruct (repair_loop_returns invoke lower text pre initial w)
        as (r1' & w1' & Hrun1 & Hframe & _).
      rewrite Hpre in Hrun1. injection Hrun1 as <- <-.
      apply Hframe. now left.
  - split; [|split].
    + intros Hyes. apply Hacc in Hyes. discriminate.
    + intros _. exact Hget.
    + intros Hnot.
      destruct (repair_loop_returns invoke lower text pre initial w)
        as (r1' & w1' & Hrun1 & Hframe & _).
      rewrite Hpre in Hrun1. injection Hrun1 as <- <-.
      apply Hframe. now left.
Qed.

Lemma C3_repair_acceptance_rule_witness :
  exists r' w',
    re_extract_missing_fields scripted lower_ascii (py "paper")
      [py "year"; py "dose"; py "toxicity"] (uniform (py "Not mentioned"))
      [Ret (py "NOT AVAILABLE"); Ret (py "  500 mg daily "); Ret (py "")]
    = (Ret r', w') /\
    getattr r' (py "dose") = Some (py "500 mg daily").
Proof.
  destruct (C3_repair_acceptance_rule
              (list (outcome str)) scripted lower_ascii (py "paper")
              [py "year"] [py "toxicity"] (py "dose")
              (dict_get_default re_extraction_prompts (py "dose") [])
              (uniform (py "Not mentioned")) (uniform (py "Not mentioned"))
              [Ret (py "NOT AVAILABLE"); Ret (py "  500 mg daily ");
               Ret (py "")]
              [Ret (py "  500 mg daily "); Ret (py "")]
              (py "  500 mg daily ") [Ret (py "")]
              eq_refl
              ltac:(cbn; intuition discriminate)
              eq_refl eq_refl)
    as (r' & w' & Hrun & Hyes & _).
  exists r', w'. split; [exact Hrun|].
  apply Hyes. split; [discriminate | cbn; intuition discriminate].
Defined.

(** C5.  Repair returns an object (it never raises, a selected field
    without a repair prompt is passed over) with the same fields as its
    argument; every field that is not selected, or has no repair prompt,
    holds its pre-repair value; every field holds either its pre-repair
    value or the trimmed text, never empty, of a completion accepted for
    that field. *)
Theorem C5_repair_frame
  (World : Type) (invoke : str -> World -> outcome str * World)
  (lower : str -> str) (text : str) (fields : list str)
  (initial : HerbExtractionResult) (w : World) :
  exists r' w',
    re_extract_missing_fields invoke lower text fields initial w
    = (Ret r', w') /\
    dict_keys (to_dict r') = dict_keys (to_dict initial) /\
    (forall name,
        ~ In name fields \/ dict_get re_extraction_prompts name = None ->
        getattr r' name = getattr initial name) /\
    (forall name, In name field_names ->
        exists v, getattr r' name = Some v /\
          (getattr initial name = Some v \/
           repaired_by invoke lower text fields name v /\ v <> [])).
Proof.
  rewrite re_extract_missing_fields_unfold.
  destruct (repair_loop_returns invoke lower text fields initial w)
    as (r' & w' & Hrun & Hframe & Hprov).
  exists r', w'. split; [exact Hrun|]. split; [reflexivity|].
  split; [exact Hframe|].
  intros name Hin. apply (getattr_declared r') in Hin. destruct Hin as [v Hv].
  exists v. split; [exact Hv|].
  destruct (Hprov name v Hv) as [Hold|Hnew]; [now left|].
  right. split; [exact Hnew|].
  destruct Hnew as (t & result & w0 & w1 & _ & _ & _ & Hacc & ->).
  now apply accepted_spec in Hacc.
Qed.

(* ====================================================================== *)
(** ** The record always has the sixteen fields *)

(** C6.  There are sixteen field names, all different.  Extraction returns
    an object whose dictionary has exactly these keys, each holding the
    string that the extraction loop stored for it; the loop's own dictionary
    has exactly these keys as well.  A validation report has the keys of the
    record it was computed from, and repair returns an object with the same
    keys. *)
Theorem C6_key_set_invariant :
  (List.length field_names = 16 /\ NoDup field_names) /\
  (forall (World : Type) (invoke : str -> World -> outcome str * World)
          (text : str) (w : World),
      exists d r w',
        for_each extraction_prompts (extract_field invoke text) [] w
        = (Ret d, w') /\
        dict_keys d = field_names /\
        extract_initial_information invoke text w = (Ret r, w') /\
        dict_keys (to_dict r) = field_names /\
        forall name, In name field_names ->
          exists v, dict_get d name = Some v /\ getattr r name = Some v) /\
  (forall r : HerbExtractionResult,
      dict_keys (validate_extraction r) = dict_keys (to_dict r)) /\
  (forall (World : Type) (invoke : str -> World -> outcome str * World)
          (lower : str -> str) (text : str) (fields : list str)
          (r : HerbExtractionResult) (w : World),
      exists r' w',
        re_extract_missing_fields invoke lower text fields r w
        = (Ret r', w') /\
        dict_keys (to_dict r') = field_names /\
        forall name, In name field_names ->
          exists v, getattr r' name = Some v).
Proof.
  split; [split; [apply field_names_length | apply field_names_NoDup]|].
  split; [|split].
  - intros World invoke text w.
    destruct (extract_returns invoke text w)
      as (d & r & w' & Hloop & Hkeys & Hrun & _ & Hvals).
    exists d, r, w'. repeat split; assumption.
  - intros r. reflexivity.
  - intros World invoke lower text fields r w.
    rewrite re_extract_missing_fields_unfold.
    destruct (repair_loop_returns invoke lower text fields r w)
      as (r' & w' & Hrun & _ & _).
    exists r', w'. split; [exact Hrun|]. split; [reflexivity|].
    intros name. apply getattr_declared.
Qed.

(* ====================================================================== *)
(** ** The driver *)

(** C7.  Whatever calls fail, during extraction or repair, the driver
    returns an object with every field populated and raises nothing; and
    no failure cuts a loop short: extraction always makes sixteen calls and
    repair one call for each selected field that has a repair prompt. *)
Theorem C7_failures_never_escalate
  (World : Type) (invoke : str -> World -> outcome str * World)
  (lower : str -> str) (text : str) (verbose : bool) (w : World) :
  (exists r w',
      extract_herb_information invoke lower text verbose w = (Ret r, w') /\
      dict_keys (to_dict r) = field_names /\
      forall name, In name field_names -> exists v, getattr r name = Some v) /\
  (forall n, exists r w',
      extract_initial_information (counted invoke) text (w, n)
      = (Ret r, (w', n + 16))) /\
  (forall fields initial n, exists r' w',
      re_extract_missing_fields (counted invoke) lower text fields initial
        (w, n)
      = (Ret r',
         (w', n + List.length
                    (filter (dict_mem re_extraction_prompts) fields)))).
Proof.
  split; [apply pipeline_returns|]. split.
  - intros n. apply extract_calls.
  - intros fields initial n. apply repair_calls.
Qed.

(** C4, as stated, fails: on the empty document, with a service that fails
    on every call, the driver returns the record holding "Not mentioned" in
    every field and raises no exception. *)
Lemma C4_empty_document_not_rejected :
  extract_herb_information scripted lower_ascii (py "") true []
  = (Ret (uniform (py "Not mentioned")), []) /\
  ~ (exists e w',
        extract_herb_information scripted lower_ascii (py "") true []
        = (Exc e, w')).
Proof.
  assert (H : extract_herb_information scripted lower_ascii (py "") true []
              = (Ret (uniform (py "Not mentioned")), []))
    by reflexivity.
  split; [exact H|]. intros (e & w' & He). rewrite H in He. discriminate.
Qed.

(* ====================================================================== *)
(** ** Trimmed values *)

Lemma lstrip_idempotent (s : str) : lstrip (lstrip s) = lstrip s.
Proof.
  induction s as [|c s IH]; simpl; [reflexivity|].
  destruct (isspace c) eqn:E; [exact IH|]. simpl. now rewrite E.
Qed.

Lemma lstrip_suffix (s : str) : exists p, s = p ++ lstrip s.
Proof.
  induction s as [|c s [p IH]]; simpl.
  - now exists [].
  - destruct (isspace c).
    + exists (c :: p). simpl. now f_equal.
    + now exists [].
Qed.

Lemma rstrip_prefix (s : str) : exists q, s = rstrip s ++ q.
Proof.
  unfold rstrip. destruct (lstrip_suffix (rev s)) as [p Hp].
  exists (rev p). rewrite <- rev_app_distr, <- Hp. now rewrite rev_involutive.
Qed.

Lemma rstrip_idempotent (s : str) : rstrip (rstrip s) = rstrip s.
Proof. unfold rstrip. now rewrite rev_involutive, lstrip_idempotent. Qed.

(** A string with no white space in front is left alone by [lstrip], and
    stays so when white space is removed at its end. *)
Lemma lstrip_fixed (s : str) :
  lstrip s = s <-> match s with [] => True | c :: _ => isspace c = false end.
Proof.
  destruct s as [|c s]; simpl; [tauto|].
  destruct (isspace c) eqn:E; split; try congruence; try discriminate.
  intros H. exfalso.
  destruct (lstrip_suffix s) as [p Hp].
  assert (Hlen : List.length (lstrip s) = List.length (c :: s))
    by now rewrite H.
  rewrite Hp in Hlen at 2. simpl in Hlen. rewrite length_app in Hlen. lia.
Qed.

Lemma lstrip_rstrip_lstrip (s : str) :
  lstrip (rstrip (lstrip s)) = rstrip (lstrip s).
Proof.
  apply lstrip_fixed.
  destruct (rstrip_prefix (lstrip s)) as [q Hq].
  destruct (rstrip (lstrip s)) as [|c t] eqn:E; [exact I|].
  pose proof (proj1 (lstrip_fixed (lstrip s)) (lstrip_idempotent s)) as Hhead.
  rewrite Hq in Hhead. exact Hhead.
Qed.

Lemma strip_idempotent (s : str) : strip (strip s) = strip s.
Proof.
  unfold strip. now rewrite lstrip_rstrip_lstrip, rstrip_idempotent.
Qed.

(** A trimmed string is empty or has a first and a last character that are
    not white space. *)
Lemma strip_ends (s : str) :
  strip s = [] \/
  exists a b m, isspace a = false /\ isspace b = false /\
    (strip s = [a] /\ a = b \/ strip s = a :: m ++ [b]).
Proof.
  pose proof (lstrip_rstrip_lstrip s) as Hfront. fold (strip s) in Hfront.
  apply lstrip_fixed in Hfront.
  assert (Hback : lstrip (rev (strip s)) = rev (strip s)).
  { assert (Hr : rev (strip s) = lstrip (rev (lstrip s)))
      by (unfold strip, rstrip; apply rev_involutive).
    rewrite Hr. apply lstrip_idempotent. }
  apply lstrip_fixed in Hback.
  destruct (strip s) as [|a t]; [now left|]. right.
  destruct (rev t) as [|b t'] eqn:Et.
  - apply (f_equal (@rev N)) in Et. rewrite rev_involutive in Et. subst t.
    exists a, a, []. auto.
  - apply (f_equal (@rev N)) in Et. rewrite rev_involutive in Et. subst t.
    assert (Hrev : rev (a :: rev (b :: t')) = b :: t' ++ [a]).
    { simpl. rewrite rev_app_distr, rev_involutive. reflexivity. }
    rewrite Hrev in Hback.
    exists a, b, (rev t'). auto.
Qed.

Lemma dict_set_Forall {V} (P : str * V -> Prop) (d : dict V) (k : str)
  (v : V) :
  (forall k', P (k', v)) -> Forall P d -> Forall P (dict_set d k v).
Proof.
  intros Hv Hd. induction Hd as [|[k0 v0] d H0 Hd IH]; simpl.
  - constructor; [apply Hv | constructor].
  - destruct (str_eqb k k0); constructor; auto.
Qed.

Section TrimmedValues.

Context {World : Type}.
Variable invoke : str -> World -> outcome str * World.

Lemma extract_loop_trimmed (text : str) (items d : dict str) (w : World)
  (d' : dict str) (w' : World) :
  Forall (fun item => strip (snd item) = snd item) d ->
  for_each items (extract_field invoke text) d w = (Ret d', w') ->
  Forall (fun item => strip (snd item) = snd item) d'.
Proof.
  revert d w. induction items as [|[name t] items IH]; intros d w Hd Hrun.
  - simpl in Hrun. unfold ret in Hrun. inversion Hrun. now subst.
  - cbn [for_each] in Hrun. unfold bind at 1 in Hrun.
    rewrite extract_field_returns in Hrun.
    destruct (invoke (format_prompt t text) w) as [[result|e] w1];
      (eapply IH; [|exact Hrun]); apply dict_set_Forall; auto;
      intros k'; cbn [snd]; apply strip_idempotent.
Qed.

End TrimmedValues.

Lemma trimmed_ends (v : str) :
  strip v = v ->
  (forall c rest, v = c :: rest -> isspace c = false) /\
  (forall c front, v = front ++ [c] -> isspace c = false).
Proof.
  intros Hv. destruct (strip_ends v) as [He | (a & b & m & Ha & Hb & Hs)];
    rewrite Hv in *.
  - subst v. split; intros c l H; [discriminate|].
    destruct l; discriminate.
  - destruct Hs as [[-> <-] | ->]; split; intros c l H.
    + now injection H as <- _.
    + destruct l as [|x l]; [now injection H as <-|].
      destruct l; discriminate.
    + now injection H as <- _.
    + change (a :: m ++ [b]) with ((a :: m) ++ [b]) in H.
      apply app_inj_tail in H. destruct H as [_ <-]. exact Hb.
Qed.

Lemma missing_fields_of_record (r : HerbExtractionResult) (name : str) :
  In name (get_missing_fields (validate_extraction r)) <->
  exists v, getattr r name = Some v /\
            needs_attention (status (validate_field name v)) = true.
Proof.
  rewrite get_missing_fields_filter, validate_extraction_map, in_map_iff.
  split.
  - intros ([k fv] & Hk & Hin). simpl in Hk. subst k.
    apply filter_In in Hin. destruct Hin as [Hin Hst].
    apply in_map_iff in Hin. destruct Hin as ([k v] & Heq & Hin).
    simpl in Heq. injection Heq as -> <-.
    exists v. split; [now apply getattr_In | exact Hst].
  - intros (v & Hget & Hst). exists (name, validate_field name v).
    split; [reflexivity|]. apply filter_In. split; [|exact Hst].
    apply getattr_In in Hget.
    apply (in_map
             (fun item => (fst item, validate_field (fst item) (snd item)))
             _ _ Hget).
Qed.

Lemma missing_fields_NoDup (r : HerbExtractionResult) :
  NoDup (get_missing_fields (validate_extraction r)).
Proof.
  rewrite get_missing_fields_filter.
  rewrite (filter_by_key (fun fv => needs_attention (status fv)))
    by (rewrite validate_extraction_keys; apply field_names_NoDup).
  apply NoDup_filter. rewrite validate_extraction_keys.
  apply field_names_NoDup.
Qed.

Lemma filter_filter_length {A} (P Q : A -> bool) (l : list A) :
  List.length (filter Q (filter P l)) <= List.length (filter Q l).
Proof.
  induction l as [|x l IH]; simpl; [lia|].
  destruct (P x); simpl; destruct (Q x); simpl; lia.
Qed.

Lemma repairable_missing_fields_bound (r : HerbExtractionResult) :
  List.length
    (filter (dict_mem re_extraction_prompts)
       (get_missing_fields (validate_extraction r))) <= 13.
Proof.
  rewrite get_missing_fields_filter.
  rewrite (filter_by_key (fun fv => needs_attention (status fv)))
    by (rewrite validate_extraction_keys; apply field_names_NoDup).
  rewrite validate_extraction_keys.
  etransitivity; [apply filter_filter_length|]. apply Nat.eq_le_incl.
  vm_compute. reflexivity.
Qed.

(* ====================================================================== *)
(** ** Further properties of extraction *)

(** X1.  Every field of the record returned by extraction is trimmed: it is
    left unchanged by [strip], so it neither starts nor ends with a white
    space character. *)
Theorem extraction_values_trimmed
  (World : Type) (invoke : str -> World -> outcome str * World)
  (text : str) (w : World) :
  exists r w',
    extract_initial_information invoke text w = (Ret r, w') /\
    forall name v, getattr r name = Some v ->
      strip v = v /\
      (forall c rest, v = c :: rest -> isspace c = false) /\
      (forall c front, v = front ++ [c] -> isspace c = false).
Proof.
  destruct (extract_returns invoke text w)
    as (d & r & w' & Hloop & _ & Hrun & _ & Hvals).
  exists r, w'. split; [exact Hrun|]. intros name v Hget.
  assert (Hv : strip v = v).
  { destruct (Hvals name) as (v' & Hd & Hr).
    - apply (getattr_declared r). eauto.
    - rewrite Hget in Hr. injection Hr as <-.
      pose proof (extract_loop_trimmed invoke text _ _ _ _ _
                    (Forall_nil _) Hloop) as Hall.
      rewrite Forall_forall in Hall.
      apply (Hall (name, v)). now apply dict_get_In. }
  split; [exact Hv | now apply trimmed_ends].
Qed.

(** X2.  When the call for a field returns, the record returned by
    extraction holds the trimmed completion in that field, whatever the
    calls for the other fields do. *)
Theorem extraction_stores_trimmed_completion
  (World : Type) (invoke : str -> World -> outcome str * World)
  (text : str) (pre post : dict str) (name t : str)
  (w : World) (d1 : dict str) (w1 : World) (result : str) (w2 : World) :
  extraction_prompts = pre ++ (name, t) :: post ->
  for_each pre (extract_field invoke text) [] w = (Ret d1, w1) ->
  invoke (format_prompt t text) w1 = (Ret result, w2) ->
  exists r w',
    extract_initial_information invoke text w = (Ret r, w') /\
    getattr r name = Some (strip result).
Proof.
  intros Hsplit Hpre Hcall.
  destruct (extract_trace invoke text pre post name t w d1 w1 Hsplit Hpre)
    as (r & w' & Hrun & Hget).
  rewrite Hcall in Hget. exists r, w'. split; assumption.
Qed.

Lemma extraction_stores_trimmed_completion_witness :
  exists r w',
    extract_initial_information scripted (py "paper")
      [Exc (Error (py "timeout")); Ret (py "  A. Harris, J. Mitchell ")]
    = (Ret r, w') /\
    getattr r (py "authors") = Some (py "A. Harris, J. Mitchell").
Proof.
  exact (extraction_stores_trimmed_completion
           (list (outcome str)) scripted (py "paper")
           (firstn 1 extraction_prompts) (skipn 2 extraction_prompts)
           (py "authors")
           (dict_get_default extraction_prompts (py "authors") [])
           [Exc (Error (py "timeout")); Ret (py "  A. Harris, J. Mitchell ")]
           [(py "title", py "Not mentioned")]
           [Ret (py "  A. Harris, J. Mitchell ")]
           (py "  A. Harris, J. Mitchell ") []
           eq_refl eq_refl eq_refl).
Defined.

(** X3.  A field is selected for repair after extraction exactly when its
    call raised, or its trimmed completion is one of the two sentinels, or
    is shorter than five characters (the empty completion included). *)
Theorem extraction_outcome_selects_repair
  (World : Type) (invoke : str -> World -> outcome str * World)
  (text : str) (pre post : dict str) (name t : str)
  (w : World) (d1 : dict str) (w1 : World) :
  extraction_prompts = pre ++ (name, t) :: post ->
  for_each pre (extract_field invoke text) [] w = (Ret d1, w1) ->
  exists r w',
    extract_initial_information invoke text w = (Ret r, w') /\
    (In name (get_missing_fields (validate_extraction r)) <->
     match fst (invoke (format_prompt t text) w1) with
     | Exc _ => True
     | Ret result =>
         In (strip result) [py "Not mentioned"; py "Not available"] \/
         len (strip result) < 5
     end).
Proof.
  intros Hsplit Hpre.
  destruct (extract_trace invoke text pre post name t w d1 w1 Hsplit Hpre)
    as (r & w' & Hrun & Hget).
  exists r, w'. split; [exact Hrun|].
  rewrite missing_fields_of_record.
  set (v := match fst (invoke (format_prompt t text) w1) with
            | Ret result => strip result
            | Exc _ => py "Not mentioned"
            end) in *.
  assert (Hiff : (exists v', getattr r name = Some v' /\
                    needs_attention (status (validate_field name v')) = true)
                 <-> needs_attention (status (validate_field name v)) = true).
  { split; [|eauto]. intros (v' & Hv' & Hst). rewrite Hget in Hv'.
    now injection Hv' as ->. }
  rewrite Hiff. clear Hiff Hget Hrun. subst v.
  destruct (fst (invoke (format_prompt t text) w1)) as [result|e].
  - destruct (validate_field_tiers name (strip result)) as (_ & _ & Htier).
    rewrite strip_idempotent in Htier.
    destruct Htier as [(Hin & Hs & _) | [(Hin & Hl & Hs & _)
                                        | (Hin & Hl & Hs & _)]];
      rewrite Hs; simpl in Hin |- *.
    + split; [|reflexivity]. intros _.
      destruct Hin as [H | [H | [H | []]]]; auto.
      right. rewrite <- H. simpl. lia.
    + split; [auto | reflexivity].
    + split; [discriminate|].
      intros [[H | [H | []]] | H]; [tauto | tauto | lia].
  - split; [trivial | reflexivity].
Qed.

Lemma extraction_outcome_selects_repair_witness :
  exists r w',
    extract_initial_information scripted (py "paper")
      [Ret (py "Turmeric and ginger"); Ret (py " n/a ")] = (Ret r, w') /\
    In (py "authors") (get_missing_fields (validate_extraction r)).
Proof.
  destruct (extraction_outcome_selects_repair
              (list (outcome str)) scripted (py "paper")
              (firstn 1 extraction_prompts) (skipn 2 extraction_prompts)
              (py "authors")
              (dict_get_default extraction_prompts (py "authors") [])
              [Ret (py "Turmeric and ginger"); Ret (py " n/a ")]
              [(py "title", py "Turmeric and ginger")]
              [Ret (py " n/a ")]
              eq_refl eq_refl)
    as (r & w' & Hrun & Hsel).
  exists r, w'. split; [exact Hrun|].
  apply Hsel. right. cbn. lia.
Defined.

(* ====================================================================== *)
(** ** Further properties of repair and of the driver *)

(** X4.  Repair does nothing when no selected field has a repair prompt
    (the empty selection, [title], [authors], [biological_activity], names
    that are no field at all): it returns its argument and makes no call. *)
Theorem repair_without_prompts_is_identity
  (World : Type) (invoke : str -> World -> outcome str * World)
  (lower : str -> str) (text : str) (fields : list str)
  (r : HerbExtractionResult) (w : World) :
  (forall name, In name fields ->
                dict_get re_extraction_prompts name = None) ->
  re_extract_missing_fields invoke lower text fields r w = (Ret r, w).
Proof.
  rewrite re_extract_missing_fields_unfold.
  induction fields as [|f fields IH]; intros Hnone; [reflexivity|].
  cbn [for_each]. unfold bind at 1. rewrite re_extract_field_returns.
  rewrite (Hnone f) by now left.
  apply IH. intros name Hin. apply Hnone. now right.
Qed.

Lemma repair_without_prompts_is_identity_witness :
  re_extract_missing_fields scripted lower_ascii (py "paper")
    [py "title"; py "authors"; py "biological_activity"; py "summary"]
    (uniform (py "n/a")) [Ret (py "A long enough answer")]
  = (Ret (uniform (py "n/a")), [Ret (py "A long enough answer")]).
Proof.
  apply (repair_without_prompts_is_identity
           (list (outcome str)) scripted lower_ascii).
  cbn [In]. intros name [<- | [<- | [<- | [<- | []]]]]; reflexivity.
Defined.

(** X5.  Provided lower-casing maps the two sentinels to their lower-case
    forms, a value written by repair is never classified MISSING by a
    following validation: a field that repair changed is PARTIAL or
    COMPLETE. *)
Theorem repaired_value_not_missing
  (World : Type) (invoke : str -> World -> outcome str * World)
  (lower : str -> str) (text : str) (fields : list str)
  (initial : HerbExtractionResult) (w : World) :
  lower (py "Not mentioned") = py "not mentioned" ->
  lower (py "Not available") = py "not available" ->
  exists r' w',
    re_extract_missing_fields invoke lower text fields initial w
    = (Ret r', w') /\
    forall name v,
      getattr r' name = Some v -> getattr initial name <> Some v ->
      exists fv,
        dict_get (validate_extraction r') name = Some fv /\
        value fv = v /\ status fv <> MISSING.
Proof.
  intros Hnm Hna. rewrite re_extract_missing_fields_unfold.
  destruct (repair_loop_returns invoke lower text fields initial w)
    as (r' & w' & Hrun & _ & Hprov).
  exists r', w'. split; [exact Hrun|]. intros name v Hget Hchanged.
  exists (validate_field name v).
  split; [apply validate_extraction_get; now apply getattr_In|].
  destruct (validate_field_tiers name v) as (_ & Hval & Htier).
  split; [exact Hval|].
  destruct (Hprov name v Hget) as [Hold | Hnew]; [contradiction|].
  destruct Hnew as (t & result & w0 & w1 & _ & _ & _ & Hacc & Hv).
  apply accepted_spec in Hacc. destruct Hacc as [Hne Hlow].
  rewrite <- Hv in Hne, Hlow.
  destruct Htier as [(Hin & _) | [(_ & _ & Hs & _) | (_ & _ & Hs & _)]];
    try (rewrite Hs; discriminate).
  exfalso. simpl in Hin. destruct Hin as [H | [H | [H | []]]].
  - apply Hlow. rewrite <- H, Hnm. now left.
  - apply Hlow. rewrite <- H, Hna. right. now left.
  - now apply Hne.
Qed.

Lemma repaired_value_not_missing_witness :
  exists r' w',
    re_extract_missing_fields scripted lower_ascii (py "paper")
      [py "year"] (uniform (py "Not mentioned")) [Ret (py " 2023 ")]
    = (Ret r', w') /\
    exists fv,
      dict_get (validate_extraction r') (py "year") = Some fv /\
      value fv = py "2023" /\ status fv <> MISSING.
Proof.
  destruct (repaired_value_not_missing
              (list (outcome str)) scripted lower_ascii (py "paper")
              [py "year"] (uniform (py "Not mentioned")) [Ret (py " 2023 ")]
              eq_refl eq_refl)
    as (r' & w' & Hrun & Hval).
  exists r', w'. split; [exact Hrun|].
  apply Hval.
  - pose proof Hrun as Hrun'. cbv in Hrun'. injection Hrun' as <- _.
    reflexivity.
  - discriminate.
Defined.

(** X6.  The driver leaves alone every field that validated COMPLETE after
    extraction and every field without a repair prompt: its final value is
    the extracted one.  In particular [title], [authors] and
    [biological_activity] are never repaired. *)
Theorem driver_keeps_complete_and_unrepairable_fields
  (World : Type) (invoke : str -> World -> outcome str * World)
  (lower : str -> str) (text : str) (verbose : bool) (w : World) :
  exists e w1 r w',
    extract_initial_information invoke text w = (Ret e, w1) /\
    extract_herb_information invoke lower text verbose w = (Ret r, w') /\
    (forall name,
        dict_get re_extraction_prompts name = None \/
        (exists fv, dict_get (validate_extraction e) name = Some fv /\
                    status fv = COMPLETE) ->
        getattr r name = getattr e name) /\
    (forall name,
        In name [py "title"; py "authors"; py "biological_activity"] ->
        getattr r name = getattr e name).
Proof.
  destruct (extract_returns invoke text w)
    as (d & e & w1 & _ & _ & Hrun & _ & _).
  rewrite extract_herb_information_unfold, Hrun.
  assert (Hmain : forall r,
    (forall name,
        ~ In name (get_missing_fields (validate_extraction e)) \/
        dict_get re_extraction_prompts name = None ->
        getattr r name = getattr e name) ->
    (forall name,
        dict_get re_extraction_prompts name = None \/
        (exists fv, dict_get (validate_extraction e) name = Some fv /\
                    status fv = COMPLETE) ->
        getattr r name = getattr e name) /\
    (forall name,
        In name [py "title"; py "authors"; py "biological_activity"] ->
        getattr r name = getattr e name)).
  { intros r Hframe. split.
    - intros name [Hnone | (fv & Hfv & Hst)]; apply Hframe; [now right|].
      left. intros Hin. apply missing_fields_of_record in Hin.
      destruct Hin as (v & Hget & Hatt).
      apply getattr_In in Hget.
      rewrite (validate_extraction_get _ _ _ Hget) in Hfv.
      injection Hfv as <-. rewrite Hst in Hatt. discriminate.
    - intros name Hin. apply Hframe. right. cbn [In] in Hin.
      destruct Hin as [<- | [<- | [<- | []]]]; reflexivity. }
  destruct (get_missing_fields (validate_extraction e)) as [|f fs] eqn:Hm.
  - exists e, w1, e, w1. split; [reflexivity|]. split; [reflexivity|].
    apply Hmain. reflexivity.
  - rewrite re_extract_missing_fields_unfold.
    destruct (repair_loop_returns invoke lower text (f :: fs) e w1)
      as (r & w' & Hrep & Hframe & _).
    exists e, w1, r, w'. split; [reflexivity|]. split; [exact Hrep|].
    apply Hmain. exact Hframe.
Qed.

(** X7.  The driver calls the service sixteen times for extraction and then
    once for each field that needs attention and has a repair prompt; no
    field is re-queried twice, so a run makes at least 16 and at most 29
    calls. *)
Theorem driver_call_budget
  (World : Type) (invoke : str -> World -> outcome str * World)
  (lower : str -> str) (text : str) (verbose : bool) (w : World) (n : nat) :
  exists e w1 r w' k,
    extract_initial_information (counted invoke) text (w, n)
    = (Ret e, (w1, n + 16)) /\
    extract_herb_information (counted invoke) lower text verbose (w, n)
    = (Ret r, (w', n + 16 + k)) /\
    k = List.length
          (filter (dict_mem re_extraction_prompts)
             (get_missing_fields (validate_extraction e))) /\
    NoDup (get_missing_fields (validate_extraction e)) /\
    k <= 13.
Proof.
  destruct (extract_calls invoke text w n) as (e & w1 & Hrun).
  rewrite extract_herb_information_unfold, Hrun.
  pose proof (missing_fields_NoDup e) as Hnd.
  pose proof (repairable_missing_fields_bound e) as Hle.
  destruct (get_missing_fields (validate_extraction e)) as [|f fs] eqn:Hm.
  - exists e, w1, e, w1, 0. rewrite Nat.add_0_r, Hm.
    split; [reflexivity|]. split; [reflexivity|]. split; [reflexivity|].
    split; [exact Hnd | lia].
  - destruct (repair_calls invoke lower text (f :: fs) e w1 (n + 16))
      as (r & w' & Hrep).
    exists e, w1, r, w',
      (List.length (filter (dict_mem re_extraction_prompts) (f :: fs))).
    split; [reflexivity|]. split; [exact Hrep|].
    rewrite Hm. split; [reflexivity|]. split; assumption.
Qed.

(** X8.  Every field of the record returned by the driver is trimmed, so
    its validation tier depends on the value and its plain length only:
    MISSING for the two sentinels and the empty string, PARTIAL for any
    other value of one to four characters, COMPLETE from five characters
    on. *)
Theorem driver_values_trimmed
  (World : Type) (invoke : str -> World -> outcome str * World)
  (lower : str -> str) (text : str) (verbose : bool) (w : World) :
  exists r w',
    extract_herb_information invoke lower text verbose w = (Ret r, w') /\
    forall name v, getattr r name = Some v ->
      strip v = v /\
      exists fv,
        dict_get (validate_extraction r) name = Some fv /\
        (status fv = MISSING <->
         In v [py "Not mentioned"; py "Not available"; py ""]) /\
        (status fv = PARTIAL <->
         ~ In v [py "Not mentioned"; py "Not available"] /\
         1 <= len v <= 4) /\
        (status fv = COMPLETE <->
         ~ In v [py "Not mentioned"; py "Not available"] /\ 5 <= len v).
Proof.
  destruct (extraction_values_trimmed World invoke text w)
    as (e & w1 & Hrun & Htrim).
  rewrite extract_herb_information_unfold, Hrun.
  assert (Htiers : forall name v, strip v = v ->
    (status (validate_field name v) = MISSING <->
     In v [py "Not mentioned"; py "Not available"; py ""]) /\
    (status (validate_field name v) = PARTIAL <->
     ~ In v [py "Not mentioned"; py "Not available"] /\ 1 <= len v <= 4) /\
    (status (validate_field name v) = COMPLETE <->
     ~ In v [py "Not mentioned"; py "Not available"] /\ 5 <= len v)).
  { intros name v Hv.
    destruct (validate_field_tiers name v) as (_ & _ & Htier).
    rewrite Hv in Htier.
    destruct Htier as [(Hin & Hs & _) | [(Hin & Hl & Hs & _)
                                        | (Hin & Hl & Hs & _)]];
      rewrite Hs; simpl in Hin |- *.
    - repeat split; try discriminate; try tauto.
      + intros [Hno Hl]. exfalso.
        destruct Hin as [H | [H | [H | []]]]; try tauto.
        rewrite <- H in Hl. simpl in Hl. lia.
      + intros [Hno Hl]. exfalso.
        destruct Hin as [H | [H | [H | []]]]; try tauto.
        rewrite <- H in Hl. simpl in Hl. lia.
    - repeat split; try discriminate; try tauto; try lia.
      destruct v; [exfalso; apply Hin; auto | simpl; lia].
    - repeat split; try discriminate; try tauto; try lia. }
  assert (Hdone : forall r,
    (forall name v, getattr r name = Some v -> strip v = v) ->
    forall name v, getattr r name = Some v ->
      strip v = v /\
      exists fv,
        dict_get (validate_extraction r) name = Some fv /\
        (status fv = MISSING <->
         In v [py "Not mentioned"; py "Not available"; py ""]) /\
        (status fv = PARTIAL <->
         ~ In v [py "Not mentioned"; py "Not available"] /\
         1 <= len v <= 4) /\
        (status fv = COMPLETE <->
         ~ In v [py "Not mentioned"; py "Not available"] /\ 5 <= len v)).
  { intros r Hr name v Hget. split; [eauto|].
    exists (validate_field name v).
    split; [apply validate_extraction_get; now apply getattr_In|].
    apply Htiers. eauto. }
  destruct (get_missing_fields (validate_extraction e)) as [|f fs].
  - exists e, w1. split; [reflexivity|]. apply Hdone.
    intros name v Hget. now apply (Htrim name v).
  - rewrite re_extract_missing_fields_unfold.
    destruct (repair_loop_returns invoke lower text (f :: fs) e w1)
      as (r & w' & Hrep & _ & Hprov).
    exists r, w'. split; [exact Hrep|]. apply Hdone.
    intros name v Hget. destruct (Hprov name v Hget) as [Hold | Hnew].
    + now apply (Htrim name v).
    + destruct Hnew as (t & result & w0 & w2 & _ & _ & _ & _ & ->).
      apply strip_idempotent.
Qed.

Lemma complete_count_plus_missing (vs : dict FieldValidation) :
  complete_count vs + List.length (get_missing_fields vs) = List.length vs.
Proof.
  rewrite get_missing_fields_filter. unfold complete_count, list_sum.
  induction vs as [|[k fv] vs IH]; [reflexivity|].
  cbn [map filter snd fst List.length].
  destruct (status fv); simpl; simpl in IH; lia.
Qed.

(** X10.  [to_dict] loses nothing: building a record from the dictionary of
    a record, as repair does for its working copy, gives that record back,
    and two records with the same dictionary are the same record. *)
Theorem to_dict_round_trip :
  (forall r : HerbExtractionResult, of_dict (to_dict r) = Some r) /\
  (forall r1 r2 : HerbExtractionResult, to_dict r1 = to_dict r2 -> r1 = r2).
Proof.
  assert (Hcopy : forall r : HerbExtractionResult,
             of_dict (to_dict r) = Some r)
    by (intros r; destruct r; reflexivity).
  split; [exact Hcopy|]. intros r1 r2 Heq.
  pose proof (Hcopy r1) as H1. rewrite Heq, Hcopy in H1.
  now injection H1 as ->.
Qed.

(* ====================================================================== *)
(** ** The driver as the composition of its stages *)

(** The driver returns either the extraction result, when no field needs
    attention, or what repair makes of it; in both cases a field that is not
    selected or has no repair prompt keeps its extracted value, and any other
    value is an accepted completion. *)
Lemma driver_runs
  (World : Type) (invoke : str -> World -> outcome str * World)
  (lower : str -> str) (text : str) (verbose : bool) (w : World) :
  exists e w1 r w',
    extract_initial_information invoke text w = (Ret e, w1) /\
    extract_herb_information invoke lower text verbose w = (Ret r, w') /\
    (get_missing_fields (validate_extraction e) = [] -> r = e /\ w' = w1) /\
    (get_missing_fields (validate_extraction e) <> [] ->
     re_extract_missing_fields invoke lower text
       (get_missing_fields (validate_extraction e)) e w1 = (Ret r, w')) /\
    (forall name,
        ~ In name (get_missing_fields (validate_extraction e)) \/
        dict_get re_extraction_prompts name = None ->
        getattr r name = getattr e name) /\
    (forall name v,
        getattr r name = Some v ->
        getattr e name = Some v \/
        repaired_by invoke lower text
          (get_missing_fields (validate_extraction e)) name v).
Proof.
  destruct (extract_returns invoke text w)
    as (d & e & w1 & _ & _ & Hrun & _ & _).
  rewrite extract_herb_information_unfold, Hrun.
  destruct (get_missing_fields (validate_extraction e)) as [|f fs] eqn:Hm.
  - exists e, w1, e, w1. rewrite Hm.
    repeat split; auto. congruence.
  - destruct (repair_loop_returns invoke lower text (f :: fs) e w1)
      as (r & w' & Hrep & Hframe & Hprov).
    rewrite <- re_extract_missing_fields_unfold in Hrep.
    exists e, w1, r, w'. rewrite Hm.
    split; [reflexivity|]. split; [exact Hrep|].
    split; [discriminate|]. split; [intros _; exact Hrep|].
    split; assumption.
Qed.

Lemma driver_calls
  (World : Type) (invoke : str -> World -> outcome str * World)
  (lower : str -> str) (text : str) (verbose : bool) (w : World) (n : nat) :
  exists e w1 r w',
    extract_initial_information (counted invoke) text (w, n)
    = (Ret e, (w1, n + 16)) /\
    extract_herb_information (counted invoke) lower text verbose (w, n)
    = (Ret r,
       (w', n + 16
            + List.length
                (filter (dict_mem re_extraction_prompts)
                   (get_missing_fields (validate_extraction e))))).
Proof.
  destruct (extract_calls invoke text w n) as (e & w1 & Hrun).
  rewrite extract_herb_information_unfold, Hrun.
  destruct (get_missing_fields (validate_extraction e)) as [|f fs] eqn:Hm.
  - exists e, w1, e, w1. rewrite Hm. simpl. rewrite Nat.add_0_r. auto.
  - destruct (repair_calls invoke lower text (f :: fs) e w1 (n + 16))
      as (r & w' & Hrep).
    exists e, w1, r, w'. rewrite Hm. auto.
Qed.

(** When every call raises, the extraction loop stores nothing but
    "Not mentioned". *)
Lemma extract_loop_all_fail
  (World : Type) (invoke : str -> World -> outcome str * World)
  (text : str) (items d : dict str) (w : World) (d' : dict str) (w' : World) :
  (forall prompt w0, exists x w0', invoke prompt w0 = (Exc x, w0')) ->
  Forall (fun item => snd item = py "Not mentioned") d ->
  for_each items (extract_field invoke text) d w = (Ret d', w') ->
  Forall (fun item => snd item = py "Not mentioned") d'.
Proof.
  intros Hfail. revert d w.
  induction items as [|[name t] items IH]; intros d w Hd Hrun.
  - simpl in Hrun. unfold ret in Hrun. inversion Hrun. now subst.
  - cbn [for_each] in Hrun. unfold bind at 1 in Hrun.
    rewrite extract_field_returns in Hrun.
    destruct (Hfail (format_prompt t text) w) as (x & w1 & Hcall).
    rewrite Hcall in Hrun.
    eapply IH; [|exact Hrun]. apply dict_set_Forall; auto.
Qed.

Lemma filter_length_monotone {A} (P Q : A -> bool) (l : list A) :
  (forall x, In x l -> P x = true -> Q x = true) ->
  List.length (filter P l) <= List.length (filter Q l).
Proof.
  induction l as [|x l IH]; intros H; simpl; [lia|].
  assert (IH' : List.length (filter P l) <= List.length (filter Q l))
    by (apply IH; intros y Hy; apply H; now right).
  destruct (P x) eqn:EP.
  - rewrite (H x) by (simpl; auto). simpl. lia.
  - destruct (Q x); simpl; lia.
Qed.

Lemma complete_count_by_name (r : HerbExtractionResult) :
  complete_count (validate_extraction r) =
  List.length
    (filter (fun name =>
               match dict_get (validate_extraction r) name with
               | Some fv => is_complete (status fv)
               | None => false
               end) field_names).
Proof.
  rewrite <- (validate_extraction_keys r).
  rewrite <- (filter_by_key (fun fv => is_complete (status fv)))
    by (rewrite validate_extraction_keys; apply field_names_NoDup).
  rewrite length_map. unfold complete_count, list_sum.
  generalize (validate_extraction r). intros vs.
  induction vs as [|[k fv] vs IH]; [reflexivity|].
  cbn [map filter snd]. destruct (is_complete (status fv)); simpl; lia.
Qed.

(** C4, on the code.  The driver has no check on its document.  On the empty
    document it raises nothing and proceeds as on any other: extraction
    calls the service once per field on the field's prompt with nothing in
    place of the document (sixteen calls) and stores the trimmed completion
    of every call that returns; the result is validated; the driver returns
    the extraction result itself when no field needs attention, and
    otherwise what repair returns for the fields needing attention, with one
    further call for each of them that has a repair prompt.  When every call
    raises, each field other than [title], [authors] and [year] holds its
    sentinel in the returned record. *)
Theorem C4_empty_document_is_processed
  (World : Type) (invoke : str -> World -> outcome str * World)
  (lower : str -> str) (verbose : bool) (w : World) :
  exists e w1 r w',
    extract_initial_information invoke (py "") w = (Ret e, w1) /\
    extract_herb_information invoke lower (py "") verbose w = (Ret r, w') /\
    (forall t, format_prompt t (py "") = t) /\
    (forall pre post name t d1 w0 result w0',
        extraction_prompts = pre ++ (name, t) :: post ->
        for_each pre (extract_field invoke (py "")) [] w = (Ret d1, w0) ->
        invoke t w0 = (Ret result, w0') ->
        getattr e name = Some (strip result)) /\
    (get_missing_fields (validate_extraction e) = [] -> r = e /\ w' = w1) /\
    (get_missing_fields (validate_extraction e) <> [] ->
     re_extract_missing_fields invoke lower (py "")
       (get_missing_fields (validate_extraction e)) e w1 = (Ret r, w')) /\
    (forall n, exists e2 w2 r2 w3,
        extract_initial_information (counted invoke) (py "") (w, n)
        = (Ret e2, (w2, n + 16)) /\
        extract_herb_information (counted invoke) lower (py "") verbose (w, n)
        = (Ret r2,
           (w3, n + 16
                + List.length
                    (filter (dict_mem re_extraction_prompts)
                       (get_missing_fields (validate_extraction e2)))))) /\
    ((forall prompt w0, exists x w0', invoke prompt w0 = (Exc x, w0')) ->
     forall name,
       In name field_names ->
       ~ In name [py "title"; py "authors"; py "year"] ->
       getattr r name = field_sentinel name).
Proof.
  destruct (driver_runs World invoke lower (py "") verbose w)
    as (e & w1 & r & w' & Hrun & Hdrv & Hnone & Hsome & _ & Hprov).
  assert (Hbare : forall t, format_prompt t (py "") = t)
    by (intros t; unfold format_prompt; apply app_nil_r).
  exists e, w1, r, w'.
  split; [exact Hrun|]. split; [exact Hdrv|]. split; [exact Hbare|].
  split; [|split; [exact Hnone|split; [exact Hsome|split]]].
  - intros pre post name t d1 w0 result w0' Hsplit Hpre Hcall.
    destruct (extract_trace invoke (py "") pre post name t w d1 w0
                Hsplit Hpre) as (e0 & w0'' & Hrun0 & Hget).
    rewrite Hrun in Hrun0. inversion Hrun0; subst e0 w0''.
    rewrite Hbare, Hcall in Hget. exact Hget.
  - intros n. apply driver_calls.
  - intros Hfail name Hdecl Hother.
    destruct (extract_returns invoke (py "") w)
      as (d & e0 & w0 & Hloop & _ & Hrun0 & _ & Hvals).
    rewrite Hrun in Hrun0. inversion Hrun0; subst e0 w0.
    destruct (Hvals name Hdecl) as (v0 & Hd & He).
    assert (Hv0 : v0 = py "Not mentioned").
    { pose proof (extract_loop_all_fail World invoke (py "") _ _ _ _ _
                    Hfail (Forall_nil _) Hloop) as Hall.
      rewrite Forall_forall in Hall.
      apply (Hall (name, v0)). now apply dict_get_In. }
    subst v0.
    destruct (field_sentinel_cases name Hdecl) as [[Hin _] | [_ Hs]];
      [contradiction|].
    rewrite Hs.
    destruct (proj1 (getattr_declared r name) Hdecl) as [v Hv].
    destruct (Hprov name v Hv) as [Hold | Hnew].
    + rewrite He in Hold. now rewrite Hv, <- Hold.
    + exfalso.
      destruct Hnew as (t & result & wa & wb & _ & _ & Hcall & _).
      destruct (Hfail (format_prompt t (py "")) wa) as (x & wc & Hexc).
      rewrite Hexc in Hcall. discriminate.
Qed.

Lemma C4_empty_document_is_processed_witness :
  exists r w',
    extract_herb_information
      (fun (_ : str) (w : unit) =>
         (Exc (Error (py "service unavailable")), w))
      lower_ascii (py "") true tt = (Ret r, w') /\
    getattr r (py "dose") = Some (py "Not mentioned").
Proof.
  destruct (C4_empty_document_is_processed unit
              (fun (_ : str) (w : unit) =>
                 (Exc (Error (py "service unavailable")), w))
              lower_ascii true tt)
    as (e & w1 & r & w' & _ & Hdrv & _ & _ & _ & _ & _ & Hfail).
  exists r, w'. split; [exact Hdrv|].
  apply (Hfail
           (fun prompt w0 =>
              ex_intro _ (Error (py "service unavailable"))
                (ex_intro _ w0 eq_refl))
           (py "dose")).
  - cbn. auto 10.
  - cbn. intuition discriminate.
Defined.

(** X9.  The number of COMPLETE fields that the final validation counts on
    the record the driver returns is at most sixteen and never below the
    number of fields that were COMPLETE after extraction, which is sixteen
    minus the number of fields the driver reported as needing attention:
    repair does not lower the count. *)
Theorem driver_complete_count_bounds
  (World : Type) (invoke : str -> World -> outcome str * World)
  (lower : str -> str) (text : str) (verbose : bool) (w : World) :
  exists e w1 r w',
    extract_initial_information invoke text w = (Ret e, w1) /\
    extract_herb_information invoke lower text verbose w = (Ret r, w') /\
    complete_count (validate_extraction e)
    + List.length (get_missing_fields (validate_extraction e)) = 16 /\
    complete_count (validate_extraction e)
    <= complete_count (validate_extraction r) /\
    complete_count (validate_extraction r) <= 16.
Proof.
  destruct (driver_runs World invoke lower text verbose w)
    as (e & w1 & r & w' & Hrun & Hdrv & _ & _ & Hframe & _).
  exists e, w1, r, w'. split; [exact Hrun|]. split; [exact Hdrv|].
  split; [|split].
  - apply (complete_count_plus_missing (validate_extraction e)).
  - rewrite !complete_count_by_name. apply filter_length_monotone.
    intros name Hdecl Hc.
    destruct (proj1 (getattr_declared e name) Hdecl) as [v Hv].
    pose proof (validate_extraction_get e name v (proj1 (getattr_In _ _ _) Hv))
      as He.
    rewrite He in Hc.
    assert (Hkeep : getattr r name = Some v).
    { rewrite Hframe; [exact Hv|]. left. intros Hin.
      apply missing_fields_of_record in Hin.
      destruct Hin as (v' & Hv' & Hatt). rewrite Hv in Hv'.
      injection Hv' as <-.
      destruct (status (validate_field name v)); discriminate. }
    now rewrite (validate_extraction_get r name v
                   (proj1 (getattr_In _ _ _) Hkeep)).
  - rewrite complete_count_by_name.
    etransitivity; [apply filter_length_le|]. reflexivity.
Qed.
